(** * stl-preview-generator: the rendering fallback pipeline

    A shallow embedding of [generate_stl_previews.py].  The three rendering
    strategies, the per-file pipeline [generate_preview], the file discovery
    and the batch driver [main] are written as computations over an explicit
    world (file system and event trace).  The external libraries (trimesh,
    matplotlib, PIL, os, tqdm) are collaborators: each of their calls is an
    event of the trace, and an oracle decides whether the call raises. *)

From Stdlib Require Import ZArith Lia Bool Ascii String List.
From Stdlib Require Import Floats.PrimFloat Floats.FloatOps Floats.SpecFloat.
From Stdlib Require Import Floats.FloatAxioms.
From Stdlib Require Import Numbers.Cyclic.Int63.Uint63.
From stdpp Require Import base option list strings gmap.

Local Open Scope string_scope.
Local Open Scope list_scope.
Local Open Scope Z_scope.

(** ** Python exceptions *)

(** The part of the exception hierarchy the handlers can tell apart:
    [BaseException] has the subclasses [Exception] (with every ordinary error
    below it), [KeyboardInterrupt], [SystemExit] and [GeneratorExit]. *)
Inductive pyexc : Type :=
  | Exception_ (cls msg : string)
  | KeyboardInterrupt
  | SystemExit (code : Z)
  | GeneratorExit.

(** [isinstance(e, Exception)] *)
Definition isinstance_Exception (e : pyexc) : bool :=
  match e with
  | Exception_ _ _ => true
  | _ => false
  end.

Inductive result (A : Type) : Type :=
  | Ret (a : A)
  | Raise (e : pyexc).
Arguments Ret {A} a.
Arguments Raise {A} e.

(** ** Meshes *)

(** A row of [mesh.vertices]: three binary64 numbers (numpy's [float64]). *)
Definition vertex : Type := float * float * float.
Definition face : Type := Z * Z * Z.

(** What [trimesh.load_mesh] hands back.  An attribute the loaded object does
    not have is [None] here; reading it raises [AttributeError].  The bounds
    of an object that has them may be Python's [None] (an empty mesh). *)
Record Mesh : Type := mkMesh {
  mesh_vertices : option (list vertex);
  mesh_faces : option (list face);
  mesh_bounds : option (option (vertex * vertex));
  mesh_volume : option float
}.

(** ** Events *)

Inductive strategy : Type := Surface | Wireframe | BoundingBox.

#[global] Instance strategy_eq_dec : EqDecision strategy.
Proof. solve_decision. Defined.

Inductive axis : Type := AxX | AxY | AxZ.

(** The text lines of the bounding-box card, before formatting. *)
Inductive card_text : Type :=
  | FileLine (filename : string)
  | FacesLine (face_count : Z)
  | VolumeLine (volume : float)
  | SizeLine (w h d : float).

(** Calls into the external libraries, with the arguments the source passes. *)
Inductive ext_call : Type :=
  | LoadMesh (stl_path : string)
  | PltFigure
  | AddSubplot3d
  | PlotTrisurf (xs ys zs : list float) (triangles : list face)
  | SetLim (a : axis) (lo hi : float)
  | ViewInit (elev azim : Z)
  | SetTicks (a : axis)
  | GridOff
  | PaneFillOff (a : axis)
  | PaneEdgeWhite (a : axis)
  | Savefig (output_path : string) (dpi : Z)
  | PltClose
  | PltSubplots
  | AxPlot (xs ys : list float)
  | AddPatch (polygon : list (float * float))
  | SetAspectEqual
  | AxisOff
  | SetFacecolorWhite
  | TightLayout
  | ImageNew (size : Z * Z)
  | ImageDrawDraw
  | DrawRectangle (box : list Z)
  | DrawLine (xy : list Z) (fill : Z * Z * Z * Z)
  | DrawText (pos : Z * Z) (text : card_text)
  | ImgSave (size : Z * Z) (output_path : string)
  | SwitchBackendAgg
  | Makedirs (output_dir : string)
  | OsWalk (base_path : string)
  | TqdmEnter (total : Z)
  | PbarUpdate
  | TqdmExit.

(** The lines [log_info] prints (the timestamp left out). *)
Inductive message : Type :=
  | Attempting (s : strategy) (name : string)
  | RenderingFailed (s : strategy) (e : pyexc)
  | GeneratedOk (s : strategy)
  | AlreadyExists (name : string)
  | AllFailed (name : string)
  | Scanning (base_path : string)
  | NoFilesFound
  | FoundFiles (n : Z)
  | SummaryHeader
  | SummaryTotal (n : Z)
  | SummarySuccess (n : Z)
  | SummaryFailed (n : Z)
  | SummarySkipped (n : Z)
  | SummaryTime.

Inductive event : Type :=
  | Log (m : message)
  | Call (c : ext_call).

(** ** The world *)

Inductive file : Type :=
  | Blob (tag : N)
  | PngFigure (dpi : Z)
  | PngCard (size : Z * Z).

Record World : Type := mkWorld {
  fs : gmap string file;
  trace : list event
}.

(** The external collaborators.  [fault c w] is the exception the call [c]
    raises in world [w], if it raises; [loaded] is the mesh a successful
    [trimesh.load_mesh] returns; [walked] is what [os.walk] yields, as
    (root, files) pairs; the three path functions are those of [os.path]. *)
Record Collaborators : Type := mkCollaborators {
  fault : ext_call -> World -> option pyexc;
  loaded : string -> World -> Mesh;
  walked : string -> World -> list (string * list string);
  basename : string -> string;
  splitext : string -> string * string;
  join : string -> string -> string
}.

(** ** Computations *)

Definition M (A : Type) : Type := World -> result A * World.

Definition ret {A} (a : A) : M A := fun w => (Ret a, w).

Definition raise {A} (e : pyexc) : M A := fun w => (Raise e, w).

Definition bind {A B} (m : M A) (k : A -> M B) : M B :=
  fun w =>
    match m w with
    | (Ret a, w') => k a w'
    | (Raise e, w') => (Raise e, w')
    end.

Notation "x <- m ;; k" := (bind m (fun x => k))
  (at level 100, m at next level, right associativity).
Notation "m ;;; k" := (bind m (fun _ => k))
  (at level 100, right associativity).

Definition emit (ev : event) (w : World) : World :=
  mkWorld (fs w) (trace w ++ [ev]).

(** [log_info(message)].  Printing is taken to succeed: a [print] that raises
    (a closed standard output, a console encoding without the check mark) is
    not modelled, and what is proved below is about the runs in which every
    log line is printed. *)
Definition log_info (m : message) : M unit :=
  fun w => (Ret tt, emit (Log m) w).

(** What a completed call leaves on the file system: the two save calls write
    their destination, no other call touches a file. *)
Definition written (c : ext_call) (files : gmap string file) : gmap string file :=
  match c with
  | Savefig output_path dpi => <[output_path := PngFigure dpi]> files
  | ImgSave size output_path => <[output_path := PngCard size]> files
  | _ => files
  end.

(** [try: body except Exception as e: handler(e)] *)
Definition try_except_Exception {A} (body : M A) (handler : pyexc -> M A) : M A :=
  fun w =>
    match body w with
    | (Ret a, w') => (Ret a, w')
    | (Raise e, w') =>
        if isinstance_Exception e then handler e w' else (Raise e, w')
    end.

(** [for x in xs: body(x)] *)
Fixpoint for_each {A} (xs : list A) (body : A -> M unit) : M unit :=
  match xs with
  | [] => ret tt
  | x :: rest => body x ;;; for_each rest body
  end.

(** ** numpy *)

(** [a[i]] on a sequence: a negative index counts from the end, an index out
    of range raises [IndexError] (here [None]). *)
Definition np_index {A} (a : list A) (i : Z) : option A :=
  let n := Z.of_nat (length a) in
  if (0 <=? i) && (i <? n) then nth_error a (Z.to_nat i)
  else if (- n <=? i) && (i <? 0) then nth_error a (Z.to_nat (n + i))
  else None.

(** [a[face]]: the rows of [a] at the three indices of [face]. *)
Definition np_take {A} (a : list A) (f : face) : option (list A) :=
  let '(i, j, k) := f in
  match np_index a i, np_index a j, np_index a k with
  | Some p, Some q, Some r => Some [p; q; r]
  | _, _, _ => None
  end.

(** [a[::step]] *)
Fixpoint np_stride_from {A} (step skip : nat) (a : list A) : list A :=
  match a with
  | [] => []
  | x :: rest =>
      match skip with
      | O => x :: np_stride_from step (Nat.pred step) rest
      | S skip' => np_stride_from step skip' rest
      end
  end.

Definition np_stride {A} (step : nat) (a : list A) : list A :=
  np_stride_from step 0 a.

(** [np.maximum(a, b)] and [np.minimum(a, b)] on binary64 numbers: the first
    argument unless the second is beyond it; a NaN on either side is the
    result. *)
Definition np_maximum (a b : float) : float :=
  if (b <=? a)%float || PrimFloat.is_nan a then a else b.

Definition np_minimum (a b : float) : float :=
  if (a <=? b)%float || PrimFloat.is_nan a then a else b.

(** [a.max()] and [a.min()]: [ValueError] (here [None]) on an empty array. *)
Definition np_max (a : list float) : option float :=
  match a with
  | [] => None
  | x :: rest => Some (fold_left np_maximum rest x)
  end.

Definition np_min (a : list float) : option float :=
  match a with
  | [] => None
  | x :: rest => Some (fold_left np_minimum rest x)
  end.

Definition col0 (vs : list vertex) : list float := map (fun v => fst (fst v)) vs.
Definition col1 (vs : list vertex) : list float := map (fun v => snd (fst v)) vs.
Definition col2 (vs : list vertex) : list float := map (fun v => snd v) vs.

(** The inner product of two rows of length three: the three products are
    rounded and summed from left to right, each sum rounded (no fused
    multiply-add). *)
Definition dot3 (u v : vertex) : float :=
  let '(u0, u1, u2) := u in
  let '(v0, v1, v2) := v in
  (u0 * v0 + u1 * v1 + u2 * v2)%float.

(** [proj_matrix = np.array([[1, 0, 0.5], [0, 1, 0.5]])] *)
Definition proj_matrix : vertex * vertex :=
  ((1, 0, 0.5), (0, 1, 0.5))%float.

(** [np.dot(vertices, proj_matrix.T)]: entry (i, j) is the inner product of
    row i of [vertices] with row j of [proj_matrix]. *)
Definition np_dot_T (vertices : list vertex) (m : vertex * vertex)
    : list (float * float) :=
  map (fun v => (dot3 v (fst m), dot3 v (snd m))) vertices.

(** ** Python numbers and strings *)

(** [float(n)] for an integer below 2^53 in absolute value. *)
Definition float_of_int (n : Z) : float :=
  if n <? 0 then PrimFloat.opp (PrimFloat.of_uint63 (Uint63.of_Z (- n)))
  else PrimFloat.of_uint63 (Uint63.of_Z n).

(** [int(f)]: truncation towards zero of a finite float. *)
Definition int_of_float (f : float) : Z :=
  match Prim2SF f with
  | S754_finite s m e =>
      let v := if 0 <=? e then Z.pos m * 2 ^ e else Z.pos m / 2 ^ (- e) in
      if s then - v else v
  | _ => 0
  end.

(** [int(255 * (1 - offset/30))], in double precision as Python computes it. *)
Definition gradient_alpha (offset : Z) : Z :=
  int_of_float
    (PrimFloat.mul (float_of_int 255)
       (PrimFloat.sub (float_of_int 1)
          (PrimFloat.div (float_of_int offset) (float_of_int 30)))).

(** [range(n)] *)
Definition range (n : nat) : list Z := map Z.of_nat (seq 0 n).

Definition lower_ascii (c : ascii) : ascii :=
  let n := nat_of_ascii c in
  if (65 <=? n)%nat && (n <=? 90)%nat then ascii_of_nat (n + 32) else c.

(** [s.lower()] on ASCII letters. *)
Fixpoint str_lower (s : string) : string :=
  match s with
  | EmptyString => EmptyString
  | String c rest => String (lower_ascii c) (str_lower rest)
  end.

(** [s.endswith(suffix)] *)
Definition str_endswith (s suffix : string) : bool :=
  let n := String.length s in
  let k := String.length suffix in
  (k <=? n)%nat && String.eqb (substring (n - k) k s) suffix.

(** ** The generator object *)

Record STLPreviewGenerator : Type := mkGenerator {
  image_size : Z * Z;
  success_count : Z;
  failure_count : Z;
  skipped_count : Z
}.

(** [STLPreviewGenerator.__init__] *)
Definition init (image_size : Z * Z) : STLPreviewGenerator :=
  mkGenerator image_size 0 0 0.

Definition incr_success (self : STLPreviewGenerator) : STLPreviewGenerator :=
  mkGenerator (image_size self) (success_count self + 1)
    (failure_count self) (skipped_count self).

Definition incr_failure (self : STLPreviewGenerator) : STLPreviewGenerator :=
  mkGenerator (image_size self) (success_count self)
    (failure_count self + 1) (skipped_count self).

Definition incr_skipped (self : STLPreviewGenerator) : STLPreviewGenerator :=
  mkGenerator (image_size self) (success_count self)
    (failure_count self) (skipped_count self + 1).

(** ** The program *)

Section Program.

Variable env : Collaborators.

(** A call into an external library: it is recorded, then it either raises
    what the oracle says or completes and leaves its effect on the files. *)
Definition call (c : ext_call) : M unit :=
  fun w =>
    match fault env c w with
    | Some e => (Raise e, emit (Call c) w)
    | None => (Ret tt, mkWorld (written c (fs w)) (trace w ++ [Call c]))
    end.

(** [trimesh.load_mesh(stl_path)] *)
Definition load_mesh (stl_path : string) : M Mesh :=
  fun w =>
    match call (LoadMesh stl_path) w with
    | (Ret _, w') => (Ret (loaded env stl_path w), w')
    | (Raise e, w') => (Raise e, w')
    end.

(** [obj.name] *)
Definition getattr {A} (name : string) (field : option A) : M A :=
  match field with
  | Some a => ret a
  | None => raise (Exception_ "AttributeError" name)
  end.

(** A numpy reduction or index that fails raises the named error. *)
Definition or_raise {A} (cls : string) (o : option A) : M A :=
  match o with
  | Some a => ret a
  | None => raise (Exception_ cls "")
  end.

(** [os.path.exists(path)] *)
Definition path_exists (path : string) : M bool :=
  fun w => (Ret (bool_decide (is_Some (fs w !! path))), w).

(** The [try] block of [generate_preview_matplotlib]. *)
Definition matplotlib_steps
    (self : STLPreviewGenerator) (stl_path output_path : string) : M bool :=
  log_info (Attempting Surface (basename env stl_path)) ;;;
  mesh <- load_mesh stl_path ;;
  call PltFigure ;;;
  call AddSubplot3d ;;;
  vertices <- getattr "vertices" (mesh_vertices mesh) ;;
  faces <- getattr "faces" (mesh_faces mesh) ;;
  call (PlotTrisurf (col0 vertices) (col1 vertices) (col2 vertices) faces) ;;;
  x_max <- or_raise "ValueError" (np_max (col0 vertices)) ;;
  x_min <- or_raise "ValueError" (np_min (col0 vertices)) ;;
  y_max <- or_raise "ValueError" (np_max (col1 vertices)) ;;
  y_min <- or_raise "ValueError" (np_min (col1 vertices)) ;;
  z_max <- or_raise "ValueError" (np_max (col2 vertices)) ;;
  z_min <- or_raise "ValueError" (np_min (col2 vertices)) ;;
  let max_range :=
    (np_maximum (np_maximum (x_max - x_min) (y_max - y_min)) (z_max - z_min) / 2)%float in
  let mid_x := ((x_max + x_min) * 0.5)%float in
  let mid_y := ((y_max + y_min) * 0.5)%float in
  let mid_z := ((z_max + z_min) * 0.5)%float in
  call (SetLim AxX (mid_x - max_range) (mid_x + max_range))%float ;;;
  call (SetLim AxY (mid_y - max_range) (mid_y + max_range))%float ;;;
  call (SetLim AxZ (mid_z - max_range) (mid_z + max_range))%float ;;;
  call (ViewInit 20 45) ;;;
  call (SetTicks AxX) ;;;
  call (SetTicks AxY) ;;;
  call (SetTicks AxZ) ;;;
  call GridOff ;;;
  call (PaneFillOff AxX) ;;;
  call (PaneFillOff AxY) ;;;
  call (PaneFillOff AxZ) ;;;
  call (PaneEdgeWhite AxX) ;;;
  call (PaneEdgeWhite AxY) ;;;
  call (PaneEdgeWhite AxZ) ;;;
  call (Savefig output_path (fst (image_size self) / 8)) ;;;
  call PltClose ;;;
  ret true.

(** [generate_preview_matplotlib]: the shaded 3D surface. *)
Definition generate_preview_matplotlib
    (self : STLPreviewGenerator) (stl_path output_path : string) : M bool :=
  try_except_Exception
    (matplotlib_steps self stl_path output_path)
    (fun e =>
       log_info (RenderingFailed Surface e) ;;;
       ret false).

(** The outline of one face: its projected triangle, closed by its first
    vertex ([np.vstack([triangle, triangle[0]])]), as x and y columns. *)
Definition plot_edges (vertices_2d : list (float * float)) (f : face) : M unit :=
  triangle <- or_raise "IndexError" (np_take vertices_2d f) ;;
  first <- or_raise "IndexError" (np_index triangle 0) ;;
  let triangle_closed := triangle ++ [first] in
  call (AxPlot (map fst triangle_closed) (map snd triangle_closed)).

(** The translucent fill of one face. *)
Definition fill_face (vertices_2d : list (float * float)) (f : face) : M unit :=
  triangle <- or_raise "IndexError" (np_take vertices_2d f) ;;
  call (AddPatch triangle).

(** The [try] block of [generate_preview_wireframe]. *)
Definition wireframe_steps
    (self : STLPreviewGenerator) (stl_path output_path : string) : M bool :=
  log_info (Attempting Wireframe (basename env stl_path)) ;;;
  mesh <- load_mesh stl_path ;;
  call PltSubplots ;;;
  vertices <- getattr "vertices" (mesh_vertices mesh) ;;
  let vertices_2d := np_dot_T vertices proj_matrix in
  faces <- getattr "faces" (mesh_faces mesh) ;;
  for_each faces (plot_edges vertices_2d) ;;;
  faces' <- getattr "faces" (mesh_faces mesh) ;;
  for_each (np_stride 5 faces') (fill_face vertices_2d) ;;;
  call SetAspectEqual ;;;
  call AxisOff ;;;
  call SetFacecolorWhite ;;;
  call TightLayout ;;;
  call (Savefig output_path (fst (image_size self) / 8)) ;;;
  call PltClose ;;;
  ret true.

(** [generate_preview_wireframe]: the projected 2D wireframe. *)
Definition generate_preview_wireframe
    (self : STLPreviewGenerator) (stl_path output_path : string) : M bool :=
  try_except_Exception
    (wireframe_steps self stl_path output_path)
    (fun e =>
       log_info (RenderingFailed Wireframe e) ;;;
       ret false).

(** The two segments the "3D effect" loop draws for one [offset]. *)
Definition gradient_segments (size : Z * Z) (margin offset : Z) : list ext_call :=
  let alpha := gradient_alpha offset in
  [ DrawLine [margin + offset; margin - offset; margin + offset + 1; margin - offset]
      (70, 130, 180, alpha);
    DrawLine [fst size - margin + offset; margin - offset;
              fst size - margin + offset + 1; margin - offset]
      (70, 130, 180, alpha) ].

(** The [try] block of [generate_preview_simple]. *)
Definition simple_steps
    (self : STLPreviewGenerator) (stl_path output_path : string) : M bool :=
  log_info (Attempting BoundingBox (basename env stl_path)) ;;;
  mesh <- load_mesh stl_path ;;
  call (ImageNew (image_size self)) ;;;
  call ImageDrawDraw ;;;
  bounds <- getattr "bounds" (mesh_bounds mesh) ;;
  let volume := default 0%float (mesh_volume mesh) in
  let face_count := default 0 (Z.of_nat <$> (length <$> mesh_faces mesh)) in
  let margin := 50 in
  let box_coords :=
    [margin; margin; fst (image_size self) - margin; snd (image_size self) - margin] in
  call (DrawRectangle box_coords) ;;;
  for_each (range 30)
    (fun offset => for_each (gradient_segments (image_size self) margin offset) call) ;;;
  let filename := basename env stl_path in
  call (DrawText (margin, snd (image_size self) - margin - 100) (FileLine filename)) ;;;
  call (DrawText (margin, snd (image_size self) - margin - 80) (FacesLine face_count)) ;;;
  call (DrawText (margin, snd (image_size self) - margin - 60) (VolumeLine volume)) ;;;
  b <- or_raise "TypeError" bounds ;;
  let '((x0, y0, z0), (x1, y1, z1)) := b in
  call (DrawText (margin, snd (image_size self) - margin - 40)
          (SizeLine (abs (x1 - x0)) (abs (y1 - y0)) (abs (z1 - z0)))%float) ;;;
  call (ImgSave (image_size self) output_path) ;;;
  ret true.

(** [generate_preview_simple]: the bounding-box card. *)
Definition generate_preview_simple
    (self : STLPreviewGenerator) (stl_path output_path : string) : M bool :=
  try_except_Exception
    (simple_steps self stl_path output_path)
    (fun e =>
       log_info (RenderingFailed BoundingBox e) ;;;
       ret false).

(** The three strategies by name. *)
Definition steps (s : strategy) : STLPreviewGenerator -> string -> string -> M bool :=
  match s with
  | Surface => matplotlib_steps
  | Wireframe => wireframe_steps
  | BoundingBox => simple_steps
  end.

Definition render (s : strategy) : STLPreviewGenerator -> string -> string -> M bool :=
  match s with
  | Surface => generate_preview_matplotlib
  | Wireframe => generate_preview_wireframe
  | BoundingBox => generate_preview_simple
  end.

(** [generate_preview]: skip an existing preview, else try the three
    strategies in order and count the outcome. *)
Definition generate_preview
    (self : STLPreviewGenerator) (stl_path output_path : string)
    : M STLPreviewGenerator :=
  present <- path_exists output_path ;;
  if (present : bool) then
    log_info (AlreadyExists (basename env stl_path)) ;;;
    ret (incr_skipped self)
  else
    success <-
      (r1 <- generate_preview_matplotlib self stl_path output_path ;;
       if (r1 : bool) then log_info (GeneratedOk Surface) ;;; ret true
       else
         r2 <- generate_preview_wireframe self stl_path output_path ;;
         if (r2 : bool) then log_info (GeneratedOk Wireframe) ;;; ret true
         else
           r3 <- generate_preview_simple self stl_path output_path ;;
           if (r3 : bool) then log_info (GeneratedOk BoundingBox) ;;; ret true
           else ret false) ;;
    if (success : bool) then ret (incr_success self)
    else
      log_info (AllFailed (basename env stl_path)) ;;;
      ret (incr_failure self).

(** [find_stl_files] *)
Definition find_stl_files (base_path : string) : M (list string) :=
  log_info (Scanning base_path) ;;;
  call (OsWalk base_path) ;;;
  fun w =>
    (Ret (flat_map
            (fun '(root, files) =>
               map (join env root)
                 (List.filter (fun f => str_endswith (str_lower f) ".stl") files))
            (walked env base_path w)),
     w).

(** The destination of one input file. *)
Definition destination (output_dir stl_path : string) : string :=
  let base_name := fst (splitext env (basename env stl_path)) in
  join env output_dir (base_name ++ ".png")%string.

(** The body of the [for stl_path in stl_files] loop of [main], with the
    generator threaded through. *)
Fixpoint process_files
    (generator : STLPreviewGenerator) (output_dir : string) (stl_files : list string)
    : M STLPreviewGenerator :=
  match stl_files with
  | [] => ret generator
  | stl_path :: rest =>
      let output_path := destination output_dir stl_path in
      generator' <- generate_preview generator stl_path output_path ;;
      call PbarUpdate ;;;
      process_files generator' output_dir rest
  end.

(** [with tqdm(total=...) as pbar: body]: the bar is closed on the way out,
    also when the body raises. *)
Definition with_tqdm {A} (total : Z) (body : M A) : M A :=
  call (TqdmEnter total) ;;;
  fun w =>
    match body w with
    | (Ret a, w') => (call TqdmExit ;;; ret a) w'
    | (Raise e, w') => (call TqdmExit ;;; raise e) w'
    end.

(** [main]: returns normally, or raises [SystemExit(1)] through [sys.exit]. *)
Definition main (input_dir output_dir : string) (size : Z * Z) : M unit :=
  call SwitchBackendAgg ;;;
  call (Makedirs output_dir) ;;;
  stl_files <- find_stl_files input_dir ;;
  match stl_files with
  | [] => log_info NoFilesFound ;;; ret tt
  | _ :: _ =>
      let total := Z.of_nat (length stl_files) in
      log_info (FoundFiles total) ;;;
      generator <- with_tqdm total (process_files (init size) output_dir stl_files) ;;
      log_info SummaryHeader ;;;
      log_info (SummaryTotal total) ;;;
      log_info (SummarySuccess (success_count generator)) ;;;
      log_info (SummaryFailed (failure_count generator)) ;;;
      log_info (SummarySkipped (skipped_count generator)) ;;;
      log_info SummaryTime ;;;
      if failure_count generator >? 0 then raise (SystemExit 1) else ret tt
  end.

(** The exit status of the interpreter after [main]: 0 on a normal return,
    the code of a [SystemExit], 130 after an uncaught [KeyboardInterrupt]
    (the interpreter ends itself by SIGINT, which a shell reports as 128 + 2),
    1 after any other uncaught exception. *)
Definition exit_status (r : result unit) : Z :=
  match r with
  | Ret _ => 0
  | Raise (SystemExit code) => code
  | Raise KeyboardInterrupt => 130
  | Raise _ => 1
  end.

End Program.

(** ** POSIX paths and sample collaborators *)

Module Posix.

(** [p.rfind(c)]: the last index of [c] in [p], or -1. *)
Fixpoint rfind_from (c : ascii) (p : list ascii) (i acc : Z) : Z :=
  match p with
  | [] => acc
  | x :: rest => rfind_from c rest (i + 1) (if Ascii.eqb x c then i else acc)
  end.

Definition rfind (c : ascii) (p : string) : Z :=
  rfind_from c (list_ascii_of_string p) 0 (-1).

(** [p[i:]] and [p[:i]] for a non-negative [i]. *)
Definition str_from (i : Z) (p : string) : string :=
  string_of_list_ascii (drop (Z.to_nat i) (list_ascii_of_string p)).

Definition str_upto (i : Z) (p : string) : string :=
  string_of_list_ascii (take (Z.to_nat i) (list_ascii_of_string p)).

(** [posixpath.basename] *)
Definition basename (p : string) : string :=
  str_from (rfind "/" p + 1) p.

(** The loop of [genericpath._splitext] that skips the leading dots. *)
Fixpoint skip_dots (fuel : nat) (p : string) (filenameIndex dotIndex : Z)
    : string * string :=
  match fuel with
  | O => (p, "")
  | S fuel' =>
      if filenameIndex <? dotIndex then
        if String.eqb (substring (Z.to_nat filenameIndex) 1 p) "." then
          skip_dots fuel' p (filenameIndex + 1) dotIndex
        else (str_upto dotIndex p, str_from dotIndex p)
      else (p, "")
  end.

(** [posixpath.splitext] *)
Definition splitext (p : string) : string * string :=
  let sepIndex := rfind "/" p in
  let dotIndex := rfind "." p in
  if sepIndex <? dotIndex then
    skip_dots (S (String.length p)) p (sepIndex + 1) dotIndex
  else (p, "").

(** [posixpath.join(a, b)] *)
Definition join (a b : string) : string :=
  if String.prefix "/" b then b
  else if String.eqb a "" || str_endswith a "/" then (a ++ b)%string
  else (a ++ "/" ++ b)%string.

End Posix.

Module Demo.

(** A unit right triangle in the XY plane. *)
Definition triangle_mesh : Mesh :=
  mkMesh (Some [(0, 0, 0); (1, 0, 0); (0, 1, 0)]%float)
         (Some [(0, 1, 2)])
         (Some (Some ((0, 0, 0), (1, 1, 0))%float))
         (Some 0%float).

(** Two inputs with the same base name in different subdirectories. *)
Definition tree : list (string * list string) :=
  [("in/a", ["part.stl"; "notes.txt"]); ("in/b", ["part.STL"; "part.stl"])].

Definition collaborators (faults : ext_call -> World -> option pyexc) : Collaborators :=
  mkCollaborators faults (fun _ _ => triangle_mesh) (fun _ _ => tree)
    Posix.basename Posix.splitext Posix.join.

(** Every library call completes. *)
Definition healthy : Collaborators :=
  collaborators (fun _ _ => None).

(** The 3D surface primitive is unavailable. *)
Definition no_surface : Collaborators :=
  collaborators (fun c _ =>
    match c with
    | PlotTrisurf _ _ _ _ => Some (Exception_ "ValueError" "Unknown projection '3d'")
    | _ => None
    end).

(** No file can be parsed. *)
Definition unparseable : Collaborators :=
  collaborators (fun c _ =>
    match c with
    | LoadMesh _ => Some (Exception_ "ValueError" "File type not supported")
    | _ => None
    end).

(** The user interrupts the first mesh load. *)
Definition interrupted : Collaborators :=
  collaborators (fun c _ =>
    match c with
    | LoadMesh _ => Some KeyboardInterrupt
    | _ => None
    end).

(** A tree without any mesh file. *)
Definition deserted : Collaborators :=
  mkCollaborators (fun _ _ => None) (fun _ _ => triangle_mesh)
    (fun _ _ => [("in", ["notes.txt"; "stl"])])
    Posix.basename Posix.splitext Posix.join.

(** The output directory cannot be created. *)
Definition read_only : Collaborators :=
  collaborators (fun c _ =>
    match c with
    | Makedirs _ => Some (Exception_ "PermissionError" "Permission denied")
    | _ => None
    end).

(** The progress bar cannot be closed. *)
Definition bar_breaks : Collaborators :=
  collaborators (fun c _ =>
    match c with
    | TqdmExit => Some (Exception_ "OSError" "Broken pipe")
    | _ => None
    end).



Definition empty_world : World := mkWorld ∅ [].

Definition generator : STLPreviewGenerator := init (512, 512).

Definition stl : string := "in/a/part.stl".
Definition png : string := "out/part.png".

(** A world in which the preview is already there. *)
Definition rendered_world : World := mkWorld {[ png := Blob 7 ]} [].

End Demo.

(** ** Observations on traces *)

Definition logs (t : list event) : list message :=
  omap (fun ev => match ev with Log m => Some m | Call _ => None end) t.

Definition calls (t : list event) : list ext_call :=
  omap (fun ev => match ev with Call c => Some c | Log _ => None end) t.

(** The strategies a trace shows being entered, in order. *)
Definition invoked (t : list event) : list strategy :=
  omap (fun m => match m with Attempting s _ => Some s | _ => None end) (logs t).

(** The mesh loads of a trace. *)
Definition loads (t : list event) : list string :=
  omap (fun c => match c with LoadMesh p => Some p | _ => None end) (calls t).

(** The outlines and the fills of a trace, in order. *)
Definition outlines (t : list event) : list (list float * list float) :=
  omap (fun c => match c with AxPlot xs ys => Some (xs, ys) | _ => None end) (calls t).

Definition fills (t : list event) : list (list (float * float)) :=
  omap (fun c => match c with AddPatch tri => Some tri | _ => None end) (calls t).

(** The start points of the line segments of a trace. *)
Definition segment_starts (t : list event) : list (Z * Z) :=
  omap (fun c => match c with
                 | DrawLine [x0; y0; _; _] _ => Some (x0, y0)
                 | _ => None
                 end) (calls t).

(** The file a call writes, if any, is [out]. *)
Definition targets (out : string) (c : ext_call) : Prop :=
  match c with
  | Savefig p _ => p = out
  | ImgSave _ p => p = out
  | _ => True
  end.

(** [w'] is [w] after the events [t], with no file other than [out] touched
    and no file removed. *)
Definition extends (out : string) (w w' : World) (t : list event) : Prop :=
  trace w' = trace w ++ t /\
  (forall p, p <> out -> fs w' !! p = fs w !! p) /\
  (forall p, is_Some (fs w !! p) -> is_Some (fs w' !! p)).

(** A computation that prints nothing, writes at most [out], and whose
    returned values satisfy [P]. *)
Definition quiet (out : string) {A} (P : A -> Prop) (m : M A) : Prop :=
  forall w, exists t,
    extends out w (m w).2 t /\ logs t = [] /\ forall a, (m w).1 = Ret a -> P a.

(** How one call of a strategy can end, with the lines it printed. *)
Inductive attempt (s : strategy) (name : string) : result bool -> list message -> Prop :=
  | attempt_ok :
      attempt s name (Ret true) [Attempting s name]
  | attempt_failed e :
      isinstance_Exception e = true ->
      attempt s name (Ret false) [Attempting s name; RenderingFailed s e]
  | attempt_aborted e :
      isinstance_Exception e = false ->
      attempt s name (Raise e) [Attempting s name].

(** What [generate_preview] makes of the results of the three strategies,
    [r1] obtained in the starting world, [r2] in the world [w1] the first
    strategy left, [r3] in the world [w2] the second left. *)
Definition cascade (self : STLPreviewGenerator) (name : string)
    (r1 : result bool) (w1 : World) (r2 : result bool) (w2 : World)
    (r3 : result bool) (w3 : World) : result STLPreviewGenerator * World :=
  match r1 with
  | Ret true => (Ret (incr_success self), emit (Log (GeneratedOk Surface)) w1)
  | Raise e => (Raise e, w1)
  | Ret false =>
      match r2 with
      | Ret true => (Ret (incr_success self), emit (Log (GeneratedOk Wireframe)) w2)
      | Raise e => (Raise e, w2)
      | Ret false =>
          match r3 with
          | Ret true =>
              (Ret (incr_success self), emit (Log (GeneratedOk BoundingBox)) w3)
          | Raise e => (Raise e, w3)
          | Ret false => (Ret (incr_failure self), emit (Log (AllFailed name)) w3)
          end
      end
  end.

(** The strategy [s] is entered in world [w_s] when [generate_preview] runs
    in world [w]: the destination is absent and every earlier strategy has
    returned False. *)
Definition reached (env : Collaborators) (self : STLPreviewGenerator)
    (stl_path output_path : string) (w : World) (s : strategy) (w_s : World) : Prop :=
  fs w !! output_path = None /\
  match s with
  | Surface => w_s = w
  | Wireframe =>
      generate_preview_matplotlib env self stl_path output_path w = (Ret false, w_s)
  | BoundingBox =>
      exists w1,
        generate_preview_matplotlib env self stl_path output_path w = (Ret false, w1) /\
        generate_preview_wireframe env self stl_path output_path w1 = (Ret false, w_s)
  end.




(** A vertex all of whose coordinates are finite ([np.isfinite]). *)
Definition finite_vertex (v : vertex) : bool :=
  let '(x, y, z) := v in is_finite x && is_finite y && is_finite z.






(** The closed outline of a face as the specification words it: the three
    projected vertices followed by the first one again, as the x column and
    the y column handed to the plot call. *)
Definition closed_outline (pts : list (float * float)) (f : face)
    : option (list float * list float) :=
  match np_take pts f with
  | Some [p; q; r] => Some ([p.1; q.1; r.1; p.1], [p.2; q.2; r.2; p.2])
  | _ => None
  end.

(** Where the segments of the corner gradient start: for each offset one on
    the diagonal leaving the corner (margin, margin) and one on the diagonal
    leaving the corner (width - margin, margin). *)
Definition gradient_starts (size : Z * Z) (margin : Z) : list (Z * Z) :=
  flat_map
    (fun offset =>
       [(margin + offset, margin - offset);
        (size.1 - margin + offset, margin - offset)])
    (range 30).

(** The line segments of a trace, in order, each with its end points
    [x0; y0; x1; y1] and its fill (red, green, blue, alpha). *)
Definition segments (t : list event) : list (list Z * (Z * Z * Z * Z)) :=
  omap (fun c => match c with DrawLine xy fill => Some (xy, fill) | _ => None end)
    (calls t).

(** One stroke of the corner highlight as the specification describes it: a
    steel-blue segment one pixel long, [k] pixels to the right of and above
    a corner, with the given alpha. *)
Definition highlight (corner : Z * Z) (k alpha : Z) : list Z * (Z * Z * Z * Z) :=
  ([corner.1 + k; corner.2 - k; corner.1 + k + 1; corner.2 - k],
   (70, 130, 180, alpha)).

(** The alpha of the thirty strokes, fading from opaque to nearly clear. *)
Definition fading : list Z :=
  [255; 246; 238; 229; 221; 212; 204; 195; 187; 178; 170; 161; 153; 144; 136;
   127; 119; 110; 102; 93; 85; 76; 68; 59; 50; 42; 33; 25; 16; 8].

(** The gradient at two corners: stroke by stroke, first at the one, then at
    the other. *)
Definition corner_gradient (left right : Z * Z) : list (list Z * (Z * Z * Z * Z)) :=
  flat_map (fun '(k, alpha) => [highlight left k alpha; highlight right k alpha])
    (combine (range 30) fading).

(** A computation that raises only instances of [Exception]. *)
Definition tame {A} (m : M A) : Prop :=
  forall w e w', m w = (Raise e, w') -> isinstance_Exception e = true.


(** An index numpy accepts for an array of length [n]. *)
Definition index_in_range (n : nat) (i : Z) : Prop :=
  - Z.of_nat n <= i < Z.of_nat n.

Definition face_in_range (n : nat) (f : face) : Prop :=
  let '(i, j, k) := f in
  index_in_range n i /\ index_in_range n j /\ index_in_range n k.

(** What each strategy needs of the loaded mesh: the surface render a vertex
    array that is not empty and a face array; the wireframe render a vertex
    array and a face array whose indices are all in range; the bounding-box
    render bounds that are not [None]. *)
Definition renderable (s : strategy) (mesh : Mesh) : Prop :=
  match s with
  | Surface =>
      exists v vs faces,
        mesh_vertices mesh = Some (v :: vs) /\ mesh_faces mesh = Some faces
  | Wireframe =>
      exists vs faces,
        mesh_vertices mesh = Some vs /\ mesh_faces mesh = Some faces /\
        Forall (face_in_range (length vs)) faces
  | BoundingBox => exists b, mesh_bounds mesh = Some (Some b)
  end.



(** A computation that loads no mesh. *)
Definition loadless {A} (m : M A) : Prop :=
  forall w, exists t, trace (m w).2 = trace w ++ t /\ loads t = [].

(** A call other than a mesh load. *)
Definition not_a_load (c : ext_call) : Prop :=
  match c with
  | LoadMesh _ => False
  | _ => True
  end.


(** * Properties *)

(** ** Binary64 arithmetic *)

(** What the projection needs of IEEE 754 arithmetic, from the specification
    of the primitive floats: multiplying by one changes nothing, a finite
    number times zero is a zero, adding a zero changes at most the sign of a
    zero, and no sum or product of finite numbers is a NaN. *)
















Section Binary64.

Local Open Scope float_scope.








End Binary64.

(** ** Traces and frames *)

Lemma logs_app (t1 t2 : list event) : logs (t1 ++ t2) = logs t1 ++ logs t2.
Proof. apply omap_app. Qed.

Lemma calls_app (t1 t2 : list event) : calls (t1 ++ t2) = calls t1 ++ calls t2.
Proof. apply omap_app. Qed.

Lemma invoked_app (t1 t2 : list event) :
  invoked (t1 ++ t2) = invoked t1 ++ invoked t2.
Proof. unfold invoked. rewrite logs_app. apply omap_app. Qed.

Lemma extends_refl (out : string) (w : World) : extends out w w [].
Proof.
  split; [symmetry; apply app_nil_r | split; auto].
Qed.

Lemma extends_trans (out : string) (w w1 w2 : World) (t1 t2 : list event) :
  extends out w w1 t1 -> extends out w1 w2 t2 -> extends out w w2 (t1 ++ t2).
Proof.
  intros (Ht1 & Hf1 & Hd1) (Ht2 & Hf2 & Hd2).
  split; [| split].
  - rewrite Ht2, Ht1. symmetry. apply app_assoc.
  - intros p Hp. rewrite (Hf2 p Hp). apply (Hf1 p Hp).
  - intros p Hp. apply Hd2, Hd1, Hp.
Qed.

Lemma extends_emit (out : string) (w : World) (ev : event) :
  extends out w (emit ev w) [ev].
Proof. split; [reflexivity | split; auto]. Qed.

Lemma insert_frame (out : string) (files : gmap string file) (x : file) :
  (forall p, p <> out -> <[out := x]> files !! p = files !! p) /\
  (forall p, is_Some (files !! p) -> is_Some (<[out := x]> files !! p)).
Proof.
  split; intros p Hp.
  - apply lookup_insert_ne. congruence.
  - destruct (decide (out = p)) as [-> | Hne].
    + rewrite lookup_insert_eq. eauto.
    + rewrite lookup_insert_ne; auto.
Qed.

Lemma extends_written (out : string) (w : World) (c : ext_call) :
  targets out c ->
  extends out w (mkWorld (written c (fs w)) (trace w ++ [Call c])) [Call c].
Proof.
  intros Hc. split; [reflexivity |]. simpl.
  destruct c; simpl in *; subst; try apply insert_frame; split; auto.
Qed.

(** ** Quiet computations compose *)

Section Quiet.

Variable env : Collaborators.
Variable out : string.

Lemma quiet_ret {A} (P : A -> Prop) (a : A) : P a -> quiet out P (ret a).
Proof.
  intros Ha w. exists []. simpl. split; [apply extends_refl | split; auto].
  intros a' [= <-]. exact Ha.
Qed.

Lemma quiet_raise {A} (P : A -> Prop) (e : pyexc) : quiet out P (raise e).
Proof.
  intros w. exists []. simpl. split; [apply extends_refl | split; auto].
  intros a' [=].
Qed.

Lemma quiet_bind {A B} (P : B -> Prop) (m : M A) (k : A -> M B) :
  quiet out (fun _ => True) m -> (forall a, quiet out P (k a)) ->
  quiet out P (bind m k).
Proof.
  intros Hm Hk w. unfold bind.
  destruct (Hm w) as (t1 & He1 & Hl1 & _).
  destruct (m w) as [[a | e] w1]; simpl in *.
  - destruct (Hk a w1) as (t2 & He2 & Hl2 & HP).
    exists (t1 ++ t2). split; [eapply extends_trans; eauto |].
    split; [rewrite logs_app, Hl1, Hl2; reflexivity | exact HP].
  - exists t1. split; [exact He1 | split; [exact Hl1 |]]. intros a [=].
Qed.

Lemma quiet_weaken {A} (P : A -> Prop) (m : M A) :
  quiet out P m -> quiet out (fun _ => True) m.
Proof.
  intros Hm w. destruct (Hm w) as (t & He & Hl & _). eauto.
Qed.

Lemma quiet_call (c : ext_call) :
  targets out c -> quiet out (fun _ => True) (call env c).
Proof.
  intros Hc w. exists [Call c]. unfold call.
  destruct (fault env c w); simpl.
  - split; [apply extends_emit | auto].
  - split; [apply extends_written, Hc | auto].
Qed.

Lemma quiet_load_mesh (stl_path : string) :
  quiet out (fun _ => True) (load_mesh env stl_path).
Proof.
  intros w. unfold load_mesh.
  destruct (quiet_call (LoadMesh stl_path) I w) as (t & He & Hl & _).
  destruct (call env (LoadMesh stl_path) w) as [[[] | e] w1]; simpl in *; eauto.
Qed.

Lemma quiet_getattr {A} (name : string) (field : option A) :
  quiet out (fun _ => True) (getattr name field).
Proof.
  destruct field; simpl; [apply quiet_ret; exact I | apply quiet_raise].
Qed.

Lemma quiet_or_raise {A} (cls : string) (o : option A) :
  quiet out (fun _ => True) (or_raise cls o).
Proof.
  destruct o; simpl; [apply quiet_ret; exact I | apply quiet_raise].
Qed.

Lemma quiet_for_each {A} (xs : list A) (body : A -> M unit) :
  (forall x, quiet out (fun _ => True) (body x)) ->
  quiet out (fun _ => True) (for_each xs body).
Proof.
  intros Hbody. induction xs as [| x rest IH]; simpl.
  - apply quiet_ret. exact I.
  - apply quiet_bind; [apply Hbody | intros _; exact IH].
Qed.

Lemma quiet_call_each (cs : list ext_call) :
  Forall (targets out) cs ->
  quiet out (fun _ => True) (for_each cs (call env)).
Proof.
  induction 1 as [| c rest Hc _ IH]; simpl.
  - apply quiet_ret. exact I.
  - apply quiet_bind; [apply quiet_call, Hc | intros _; exact IH].
Qed.

Lemma quiet_gradient_segments (size : Z * Z) (margin offset : Z) :
  quiet out (fun _ => True)
    (for_each (gradient_segments size margin offset) (call env)).
Proof.
  apply quiet_call_each. repeat constructor.
Qed.

End Quiet.

Create HintDb quiet.

#[local] Hint Resolve quiet_load_mesh quiet_getattr quiet_or_raise
  quiet_gradient_segments : quiet.

(** Walks a chain of binds, one statement at a time. *)
Ltac quiet_step :=
  lazymatch goal with
  | |- quiet _ _ (bind _ _) => apply quiet_bind; [| intros ?]
  | |- quiet _ _ (ret _) => apply quiet_ret; reflexivity || exact I
  | |- quiet _ _ (call _ _) => apply quiet_call; simpl; reflexivity || exact I
  | |- quiet _ _ (for_each (gradient_segments _ _ _) _) =>
      apply quiet_gradient_segments
  | |- quiet _ _ (for_each _ _) => apply quiet_for_each; intros ?
  | |- quiet _ _ (let '(_, _) := ?b in _) => destruct b
  | |- quiet _ _ _ => first [solve [auto with quiet] | progress cbv zeta]
  end.

Ltac quiet_chain := repeat quiet_step.

(** ** One strategy, one attempt *)

Section Strategies.

Variable env : Collaborators.

Lemma guarded_attempt (s : strategy) (name out : string) (rest : M bool) (w : World) :
  quiet out (eq true) rest ->
  let m := try_except_Exception
             (log_info (Attempting s name) ;;; rest)
             (fun e => log_info (RenderingFailed s e) ;;; ret false) in
  exists t, extends out w (m w).2 t /\ attempt s name (m w).1 (logs t).
Proof.
  intros Hrest. simpl. unfold try_except_Exception, bind, log_info.
  destruct (Hrest (emit (Log (Attempting s name)) w)) as (t & He & Hl & Hv).
  pose proof (extends_emit out w (Log (Attempting s name))) as H0.
  destruct (rest (emit (Log (Attempting s name)) w)) as [[b | e] w1]; simpl in *.
  - exists ([Log (Attempting s name)] ++ t).
    split; [eapply extends_trans; eauto |].
    rewrite logs_app, Hl. rewrite <- (Hv b eq_refl). constructor.
  - destruct (isinstance_Exception e) eqn:Hcls; simpl.
    + exists (([Log (Attempting s name)] ++ t) ++ [Log (RenderingFailed s e)]).
      split.
      * eapply extends_trans; [eapply extends_trans; eauto | apply extends_emit].
      * rewrite !logs_app, Hl. simpl. constructor. exact Hcls.
    + exists ([Log (Attempting s name)] ++ t).
      split; [eapply extends_trans; eauto |].
      rewrite logs_app, Hl. constructor. exact Hcls.
Qed.

Lemma matplotlib_attempt self stl_path output_path w :
  exists t,
    extends output_path w (generate_preview_matplotlib env self stl_path output_path w).2 t /\
    attempt Surface (basename env stl_path)
      (generate_preview_matplotlib env self stl_path output_path w).1 (logs t).
Proof.
  apply guarded_attempt. quiet_chain.
Qed.

Lemma wireframe_attempt self stl_path output_path w :
  exists t,
    extends output_path w (generate_preview_wireframe env self stl_path output_path w).2 t /\
    attempt Wireframe (basename env stl_path)
      (generate_preview_wireframe env self stl_path output_path w).1 (logs t).
Proof.
  apply guarded_attempt. unfold plot_edges, fill_face. quiet_chain.
Qed.

Lemma simple_attempt self stl_path output_path w :
  exists t,
    extends output_path w (generate_preview_simple env self stl_path output_path w).2 t /\
    attempt BoundingBox (basename env stl_path)
      (generate_preview_simple env self stl_path output_path w).1 (logs t).
Proof.
  apply guarded_attempt. quiet_chain.
Qed.

End Strategies.

(** ** The per-file pipeline *)

Section Pipeline.

Variable env : Collaborators.

Lemma generate_preview_skip self stl_path output_path w :
  is_Some (fs w !! output_path) ->
  generate_preview env self stl_path output_path w =
  (Ret (incr_skipped self), emit (Log (AlreadyExists (basename env stl_path))) w).
Proof.
  intros Hex. unfold generate_preview, bind, path_exists.
  rewrite bool_decide_eq_true_2 by exact Hex. reflexivity.
Qed.

Lemma generate_preview_cascade self stl_path output_path w r1 w1 r2 w2 r3 w3 :
  fs w !! output_path = None ->
  generate_preview_matplotlib env self stl_path output_path w = (r1, w1) ->
  generate_preview_wireframe env self stl_path output_path w1 = (r2, w2) ->
  generate_preview_simple env self stl_path output_path w2 = (r3, w3) ->
  generate_preview env self stl_path output_path w =
  cascade self (basename env stl_path) r1 w1 r2 w2 r3 w3.
Proof.
  intros Hno H1 H2 H3. unfold generate_preview, bind, path_exists.
  rewrite bool_decide_eq_false_2 by (rewrite Hno; intros [? [=]]).
  rewrite H1. destruct r1 as [[|] | e1]; simpl; try reflexivity.
  rewrite H2. destruct r2 as [[|] | e2]; simpl; try reflexivity.
  rewrite H3. destruct r3 as [[|] | e3]; simpl; reflexivity.
Qed.

(** C2. A file whose destination already exists is skipped: the skipped
    counter goes up by one and the other two stay, the file system is left as
    it was (the existing preview is not touched), and the only event is the
    "already exists" line: no strategy is entered and no mesh is loaded. *)
Theorem existing_destination_is_skipped self stl_path output_path w :
  is_Some (fs w !! output_path) ->
  exists self' w' t,
    generate_preview env self stl_path output_path w = (Ret self', w') /\
    skipped_count self' = skipped_count self + 1 /\
    success_count self' = success_count self /\
    failure_count self' = failure_count self /\
    fs w' = fs w /\
    trace w' = trace w ++ t /\
    t = [Log (AlreadyExists (basename env stl_path))] /\
    invoked t = [] /\ loads t = [] /\ calls t = [].
Proof.
  intros Hex. rewrite (generate_preview_skip _ _ _ _ Hex).
  eexists _, _, _. repeat split; reflexivity.
Qed.

(** The events of a cascade: those of the strategies that ran, then the line
    of the outcome. *)
Lemma cascade_invoked self stl_path output_path w r1 w1 r2 w2 r3 w3 :
  generate_preview_matplotlib env self stl_path output_path w = (r1, w1) ->
  generate_preview_wireframe env self stl_path output_path w1 = (r2, w2) ->
  generate_preview_simple env self stl_path output_path w2 = (r3, w3) ->
  exists t,
    extends output_path w
      (cascade self (basename env stl_path) r1 w1 r2 w2 r3 w3).2 t /\
    invoked t =
      match r1 with
      | Ret false =>
          match r2 with
          | Ret false => [Surface; Wireframe; BoundingBox]
          | _ => [Surface; Wireframe]
          end
      | _ => [Surface]
      end.
Proof.
  intros H1 H2 H3.
  destruct (matplotlib_attempt env self stl_path output_path w) as (t1 & E1 & A1).
  destruct (wireframe_attempt env self stl_path output_path w1) as (t2 & E2 & A2).
  destruct (simple_attempt env self stl_path output_path w2) as (t3 & E3 & A3).
  rewrite H1 in E1, A1. rewrite H2 in E2, A2. rewrite H3 in E3, A3.
  simpl in *.
  assert (I1 : invoked t1 = [Surface])
    by (unfold invoked; inversion A1; reflexivity).
  assert (I2 : invoked t2 = [Wireframe])
    by (unfold invoked; inversion A2; reflexivity).
  assert (I3 : invoked t3 = [BoundingBox])
    by (unfold invoked; inversion A3; reflexivity).
  pose proof (fun m w => extends_emit output_path w (Log m)) as Hemit.
  destruct r1 as [[|] | e1]; simpl.
  - exists (t1 ++ [Log (GeneratedOk Surface)]).
    split; [eapply extends_trans; eauto |].
    rewrite invoked_app, I1. reflexivity.
  - destruct r2 as [[|] | e2]; simpl.
    + exists ((t1 ++ t2) ++ [Log (GeneratedOk Wireframe)]).
      split; [eapply extends_trans; [eapply extends_trans |]; eauto |].
      rewrite !invoked_app, I1, I2. reflexivity.
    + destruct r3 as [[|] | e3]; simpl.
      * exists (((t1 ++ t2) ++ t3) ++ [Log (GeneratedOk BoundingBox)]).
        split; [repeat (eapply extends_trans; eauto) |].
        rewrite !invoked_app, I1, I2, I3. reflexivity.
      * exists (((t1 ++ t2) ++ t3) ++ [Log (AllFailed (basename env stl_path))]).
        split; [repeat (eapply extends_trans; eauto) |].
        rewrite !invoked_app, I1, I2, I3. reflexivity.
      * exists ((t1 ++ t2) ++ t3).
        split; [repeat (eapply extends_trans; eauto) |].
        rewrite !invoked_app, I1, I2, I3. reflexivity.
    + exists (t1 ++ t2).
      split; [eapply extends_trans; eauto |].
      rewrite invoked_app, I1, I2. reflexivity.
  - exists t1. split; [exact E1 | exact I1].
Qed.

(** C1. For a file whose destination does not exist, the strategies entered
    are, in this order, the surface render, then the wireframe render only if
    the surface render returned False, then the bounding-box render only if
    the wireframe render returned False too: the cascade stops at the first
    True, and no strategy is entered twice. *)
Theorem strategies_tried_in_order self stl_path output_path w r1 w1 r2 w2 r3 w3 :
  fs w !! output_path = None ->
  generate_preview_matplotlib env self stl_path output_path w = (r1, w1) ->
  generate_preview_wireframe env self stl_path output_path w1 = (r2, w2) ->
  generate_preview_simple env self stl_path output_path w2 = (r3, w3) ->
  exists t,
    trace (generate_preview env self stl_path output_path w).2 = trace w ++ t /\
    NoDup (invoked t) /\
    invoked t =
      match r1 with
      | Ret false =>
          match r2 with
          | Ret false => [Surface; Wireframe; BoundingBox]
          | _ => [Surface; Wireframe]
          end
      | _ => [Surface]
      end.
Proof.
  intros Hno H1 H2 H3.
  rewrite (generate_preview_cascade _ _ _ _ _ _ _ _ _ _ Hno H1 H2 H3).
  destruct (cascade_invoked self _ _ _ _ _ _ _ _ _ H1 H2 H3) as (t & (Ht & _) & Hi).
  exists t. split; [exact Ht |]. split; [| exact Hi].
  rewrite Hi. destruct r1 as [[|] | ?]; [| destruct r2 as [[|] | ?] |];
    apply (bool_decide_unpack _); reflexivity.
Qed.

Lemma logged_then_quiet {A} (out : string) (P : A -> Prop) (m : message)
    (rest : M A) (w : World) (a : A) (w' : World) :
  quiet out P rest -> (log_info m ;;; rest) w = (Ret a, w') -> P a.
Proof.
  intros Hrest. unfold bind, log_info. intros Hrun.
  destruct (Hrest (emit (Log m) w)) as (_ & _ & _ & Hv).
  apply Hv. rewrite Hrun. reflexivity.
Qed.

(** A [try] block that runs to its end returns True. *)
Lemma steps_return_true s self stl_path output_path w b w' :
  steps env s self stl_path output_path w = (Ret b, w') -> b = true.
Proof.
  intros Hrun. symmetry. destruct s; simpl in Hrun.
  - eapply (logged_then_quiet output_path (eq true)); [| exact Hrun]. quiet_chain.
  - eapply (logged_then_quiet output_path (eq true)); [| exact Hrun].
    unfold plot_edges, fill_face. quiet_chain.
  - eapply (logged_then_quiet output_path (eq true)); [| exact Hrun]. quiet_chain.
Qed.

(** What a strategy makes of the way its [try] block ends. *)
Lemma render_by_cases s self stl_path output_path w :
  match steps env s self stl_path output_path w with
  | (Ret b, w') =>
      b = true /\ render env s self stl_path output_path w = (Ret true, w')
  | (Raise e, w') =>
      if isinstance_Exception e then
        render env s self stl_path output_path w =
        (Ret false, emit (Log (RenderingFailed s e)) w')
      else render env s self stl_path output_path w = (Raise e, w')
  end.
Proof.
  destruct (steps env s self stl_path output_path w) as [[b | e] w'] eqn:Hrun.
  - pose proof (steps_return_true _ _ _ _ _ _ _ Hrun) as ->. split; [reflexivity |].
    destruct s; simpl in *;
      unfold generate_preview_matplotlib, generate_preview_wireframe,
        generate_preview_simple, try_except_Exception; rewrite Hrun; reflexivity.
  - destruct (isinstance_Exception e) eqn:Hcls; destruct s; simpl in *;
      unfold generate_preview_matplotlib, generate_preview_wireframe,
        generate_preview_simple, try_except_Exception; rewrite Hrun, Hcls; reflexivity.
Qed.

Lemma render_true_inv s self stl_path output_path w w' :
  render env s self stl_path output_path w = (Ret true, w') ->
  steps env s self stl_path output_path w = (Ret true, w').
Proof.
  intros Hr. pose proof (render_by_cases s self stl_path output_path w) as Hc.
  destruct (steps env s self stl_path output_path w) as [[b | e] w1].
  - destruct Hc as [-> Hc]. congruence.
  - destruct (isinstance_Exception e); congruence.
Qed.

(** C6, as amended.  A strategy returns True exactly when its [try] block
    runs to its end; an exception raised in the block that is an instance of
    [Exception] is caught, logged and turned into False; only an exception
    that is not an instance of [Exception] leaves the strategy. *)
Theorem exceptions_become_false s self stl_path output_path w :
  match steps env s self stl_path output_path w with
  | (Ret b, w') =>
      b = true /\ render env s self stl_path output_path w = (Ret true, w')
  | (Raise e, w') =>
      if isinstance_Exception e then
        render env s self stl_path output_path w =
        (Ret false, emit (Log (RenderingFailed s e)) w')
      else render env s self stl_path output_path w = (Raise e, w')
  end.
Proof. apply render_by_cases. Qed.

(** C7. Each call of [generate_preview] that returns moves exactly one of the
    three counters, by exactly one, and lowers none; it is the success counter
    exactly when the destination was absent and some strategy that ran
    returned True, and the failure counter exactly when the destination was
    absent and all three strategies returned False. *)
Theorem one_counter_per_file self stl_path output_path w self' w' r1 w1 r2 w2 r3 w3 :
  generate_preview env self stl_path output_path w = (Ret self', w') ->
  generate_preview_matplotlib env self stl_path output_path w = (r1, w1) ->
  generate_preview_wireframe env self stl_path output_path w1 = (r2, w2) ->
  generate_preview_simple env self stl_path output_path w2 = (r3, w3) ->
  ((success_count self' = success_count self + 1 /\
    failure_count self' = failure_count self /\
    skipped_count self' = skipped_count self) \/
   (success_count self' = success_count self /\
    failure_count self' = failure_count self + 1 /\
    skipped_count self' = skipped_count self) \/
   (success_count self' = success_count self /\
    failure_count self' = failure_count self /\
    skipped_count self' = skipped_count self + 1)) /\
  (success_count self <= success_count self' /\
   failure_count self <= failure_count self' /\
   skipped_count self <= skipped_count self') /\
  (success_count self' = success_count self + 1 <->
   fs w !! output_path = None /\
   (r1 = Ret true \/
    r1 = Ret false /\ (r2 = Ret true \/ r2 = Ret false /\ r3 = Ret true))) /\
  (failure_count self' = failure_count self + 1 <->
   fs w !! output_path = None /\
   r1 = Ret false /\ r2 = Ret false /\ r3 = Ret false).
Proof.
  intros Hrun H1 H2 H3.
  destruct (fs w !! output_path) as [x |] eqn:Hdest.
  - rewrite generate_preview_skip in Hrun by (rewrite Hdest; eauto).
    injection Hrun as <- <-. simpl.
    repeat split; try lia; try (right; right; repeat split; lia);
      intros; try lia; intuition discriminate.
  - rewrite (generate_preview_cascade _ _ _ _ _ _ _ _ _ _ Hdest H1 H2 H3) in Hrun.
    destruct r1 as [[|] | e1]; [| destruct r2 as [[|] | e2];
      [| destruct r3 as [[|] | e3] |] |]; simpl in Hrun;
      try discriminate; injection Hrun as <- <-; simpl;
      (split; [first [left; repeat split; lia | right; left; repeat split; lia] |]);
      (split; [repeat split; lia |]);
      split; split; intros; try lia; intuition (try discriminate; try lia; auto).
Qed.

(** C9. A strategy whose [try] block raises an object that is not an instance
    of [Exception] does not turn it into False: the object leaves the
    strategy, leaves [generate_preview], and ends the loop over the files
    before any later file is looked at. *)
Theorem base_exceptions_propagate self stl_path output_dir rest w s w_s e w' :
  reached env self stl_path (destination env output_dir stl_path) w s w_s ->
  steps env s self stl_path (destination env output_dir stl_path) w_s = (Raise e, w') ->
  isinstance_Exception e = false ->
  render env s self stl_path (destination env output_dir stl_path) w_s = (Raise e, w') /\
  generate_preview env self stl_path (destination env output_dir stl_path) w
    = (Raise e, w') /\
  process_files env self output_dir (stl_path :: rest) w = (Raise e, w').
Proof.
  intros [Hno Hreach] Hrun Hcls.
  pose proof (render_by_cases s self stl_path
                (destination env output_dir stl_path) w_s) as Hr.
  rewrite Hrun, Hcls in Hr.
  assert (Hgen : generate_preview env self stl_path
                   (destination env output_dir stl_path) w = (Raise e, w')).
  { unfold generate_preview, bind, path_exists.
    rewrite bool_decide_eq_false_2 by (rewrite Hno; intros [? [=]]).
    destruct s; simpl in Hr, Hreach.
    - subst w_s. rewrite Hr. reflexivity.
    - rewrite Hreach, Hr. reflexivity.
    - destruct Hreach as (w1 & Hm & Hw). rewrite Hm, Hw, Hr. reflexivity. }
  split; [exact Hr |]. split; [exact Hgen |].
  simpl. unfold bind at 1. rewrite Hgen. reflexivity.
Qed.

End Pipeline.

(** ** Runs that return: what they did *)

Lemma outlines_app (t1 t2 : list event) :
  outlines (t1 ++ t2) = outlines t1 ++ outlines t2.
Proof. unfold outlines. rewrite calls_app. apply omap_app. Qed.

Lemma fills_app (t1 t2 : list event) : fills (t1 ++ t2) = fills t1 ++ fills t2.
Proof. unfold fills. rewrite calls_app. apply omap_app. Qed.

Lemma segment_starts_app (t1 t2 : list event) :
  segment_starts (t1 ++ t2) = segment_starts t1 ++ segment_starts t2.
Proof. unfold segment_starts. rewrite calls_app. apply omap_app. Qed.

Lemma segments_app (t1 t2 : list event) : segments (t1 ++ t2) = segments t1 ++ segments t2.
Proof. unfold segments. rewrite calls_app. apply omap_app. Qed.

Lemma bind_ret_inv {A B} (m : M A) (k : A -> M B) (w : World) (b : B) (w' : World) :
  bind m k w = (Ret b, w') ->
  exists a w1, m w = (Ret a, w1) /\ k a w1 = (Ret b, w').
Proof.
  unfold bind. destruct (m w) as [[a | e] w1]; [eauto | discriminate].
Qed.

Lemma log_info_inv (m : message) (w : World) (u : unit) (w' : World) :
  log_info m w = (Ret u, w') -> w' = emit (Log m) w.
Proof. intros [=]; subst. reflexivity. Qed.

Lemma or_raise_inv {A} (cls : string) (o : option A) (w : World) (a : A) (w' : World) :
  or_raise cls o w = (Ret a, w') -> o = Some a /\ w' = w.
Proof. destruct o; simpl; intros [=]; subst; auto. Qed.

Lemma getattr_inv {A} (name : string) (o : option A) (w : World) (a : A) (w' : World) :
  getattr name o w = (Ret a, w') -> o = Some a /\ w' = w.
Proof. destruct o; simpl; intros [=]; subst; auto. Qed.

Lemma ret_inv {A} (a b : A) (w w' : World) :
  ret a w = (Ret b, w') -> b = a /\ w' = w.
Proof. intros [=]; subst; auto. Qed.

Section Completed.

Variable env : Collaborators.

Lemma call_ret_inv (c : ext_call) (w : World) (u : unit) (w' : World) :
  call env c w = (Ret u, w') ->
  trace w' = trace w ++ [Call c] /\ fs w' = written c (fs w).
Proof.
  unfold call. destruct (fault env c w); intros [=]; subst; auto.
Qed.

Lemma load_mesh_inv (stl_path : string) (w : World) (mesh : Mesh) (w' : World) :
  load_mesh env stl_path w = (Ret mesh, w') ->
  mesh = loaded env stl_path w /\
  trace w' = trace w ++ [Call (LoadMesh stl_path)] /\ fs w' = fs w.
Proof.
  unfold load_mesh.
  destruct (call env (LoadMesh stl_path) w) as [[[] | e] w1] eqn:Hc; intros [=]; subst.
  apply call_ret_inv in Hc as [? ?]. auto.
Qed.

Lemma call_each_inv (cs : list ext_call) (w : World) (u : unit) (w' : World) :
  Forall (fun c => written c = id) cs ->
  for_each cs (call env) w = (Ret u, w') ->
  trace w' = trace w ++ map Call cs /\ fs w' = fs w.
Proof.
  intros Hcs. revert w. induction Hcs as [| c rest Hc _ IH]; intros w; simpl.
  - intros [=]; subst. rewrite app_nil_r. auto.
  - intros Hrun. apply bind_ret_inv in Hrun as (? & w1 & H1 & H2).
    apply call_ret_inv in H1 as [Ht Hf]. apply IH in H2 as [Ht' Hf'].
    rewrite Ht', Ht, Hf', Hf, Hc, <- app_assoc. auto.
Qed.

Lemma call_groups_inv {A} (g : A -> list ext_call) (xs : list A)
    (w : World) (u : unit) (w' : World) :
  (forall x, Forall (fun c => written c = id) (g x)) ->
  for_each xs (fun x => for_each (g x) (call env)) w = (Ret u, w') ->
  trace w' = trace w ++ map Call (flat_map g xs) /\ fs w' = fs w.
Proof.
  intros Hg. revert w. induction xs as [| x rest IH]; intros w; simpl.
  - intros [=]; subst. rewrite app_nil_r. auto.
  - intros Hrun. apply bind_ret_inv in Hrun as (? & w1 & H1 & H2).
    apply call_each_inv in H1 as [Ht Hf]; [| apply Hg].
    apply IH in H2 as [Ht' Hf'].
    rewrite Ht', Ht, Hf', Hf, map_app, <- app_assoc. auto.
Qed.

Lemma np_take_shape {A} (a : list A) (f : face) (tri : list A) :
  np_take a f = Some tri -> exists p q r, tri = [p; q; r].
Proof.
  destruct f as [[i j] k]. unfold np_take.
  destruct (np_index a i), (np_index a j), (np_index a k); intros [=]; eauto.
Qed.

Lemma plot_edges_inv (pts : list (float * float)) (f : face) (w : World) (u : unit) (w' : World) :
  plot_edges env pts f w = (Ret u, w') ->
  exists o, closed_outline pts f = Some o /\
    trace w' = trace w ++ [Call (AxPlot o.1 o.2)] /\ fs w' = fs w.
Proof.
  unfold plot_edges. intros Hrun.
  apply bind_ret_inv in Hrun as (tri & w1 & H1 & Hrun).
  apply or_raise_inv in H1 as [Htake ->].
  apply bind_ret_inv in Hrun as (first & w2 & H2 & Hrun).
  apply or_raise_inv in H2 as [Hfirst ->].
  apply call_ret_inv in Hrun as [Ht Hf].
  destruct (np_take_shape _ _ _ Htake) as (p & q & r & ->).
  injection Hfirst as <-.
  exists ([p.1; q.1; r.1; p.1], [p.2; q.2; r.2; p.2]).
  unfold closed_outline. rewrite Htake. auto.
Qed.

Lemma plot_loop_inv (pts : list (float * float)) (faces : list face)
    (w : World) (u : unit) (w' : World) :
  for_each faces (plot_edges env pts) w = (Ret u, w') ->
  exists t, trace w' = trace w ++ t /\ fs w' = fs w /\ logs t = [] /\
    fills t = [] /\
    Forall2 (fun f o => closed_outline pts f = Some o) faces (outlines t).
Proof.
  revert w. induction faces as [| f rest IH]; intros w; simpl.
  - intros [=]; subst. exists []. rewrite app_nil_r. repeat split. constructor.
  - intros Hrun. apply bind_ret_inv in Hrun as (? & w1 & H1 & H2).
    apply plot_edges_inv in H1 as (o & Ho & Ht & Hf).
    apply IH in H2 as (t & Ht' & Hf' & Hl & Hfi & Hall).
    exists ([Call (AxPlot o.1 o.2)] ++ t).
    rewrite Ht', Ht, Hf', Hf, <- app_assoc. repeat split; auto.
    rewrite outlines_app. simpl. constructor; [| exact Hall].
    rewrite Ho. destruct o; reflexivity.
Qed.

Lemma fill_loop_inv (pts : list (float * float)) (faces : list face)
    (w : World) (u : unit) (w' : World) :
  for_each faces (fill_face env pts) w = (Ret u, w') ->
  exists t, trace w' = trace w ++ t /\ fs w' = fs w /\ logs t = [] /\
    outlines t = [] /\
    Forall2 (fun f tri => np_take pts f = Some tri) faces (fills t).
Proof.
  revert w. induction faces as [| f rest IH]; intros w; simpl.
  - intros [=]; subst. exists []. rewrite app_nil_r. repeat split. constructor.
  - intros Hrun. apply bind_ret_inv in Hrun as (? & w1 & H1 & H2).
    unfold fill_face in H1.
    apply bind_ret_inv in H1 as (tri & w0 & H0 & H1).
    apply or_raise_inv in H0 as [Htake ->].
    apply call_ret_inv in H1 as [Ht Hf].
    apply IH in H2 as (t & Ht' & Hf' & Hl & Hol & Hall).
    exists ([Call (AddPatch tri)] ++ t).
    rewrite Ht', Ht, Hf', Hf, <- app_assoc. repeat split; auto.
    rewrite fills_app. simpl. constructor; [exact Htake | exact Hall].
Qed.

Lemma gradient_writes_nothing (size : Z * Z) (margin offset : Z) :
  Forall (fun c => written c = id) (gradient_segments size margin offset).
Proof. repeat constructor. Qed.

End Completed.

(** Takes apart a chain of binds that returned. *)
Ltac run_inv :=
  repeat match goal with
  | H : bind _ _ _ = (Ret _, _) |- _ =>
      apply bind_ret_inv in H as (? & ? & ? & H); cbv beta zeta in H
  | H : log_info _ _ = (Ret _, _) |- _ => apply log_info_inv in H
  | H : call _ _ _ = (Ret _, _) |- _ => apply call_ret_inv in H as [? ?]
  | H : load_mesh _ _ _ = (Ret _, _) |- _ => apply load_mesh_inv in H as (? & ? & ?)
  | H : getattr _ _ _ = (Ret _, _) |- _ => apply getattr_inv in H as [? ?]
  | H : or_raise _ _ _ = (Ret _, _) |- _ => apply or_raise_inv in H as [? ?]
  | H : ret _ _ = (Ret _, _) |- _ => apply ret_inv in H as [? ?]
  | H : for_each _ (plot_edges _ _) _ = (Ret _, _) |- _ =>
      apply plot_loop_inv in H as (? & ? & ? & ? & ? & ?)
  | H : for_each _ (fill_face _ _) _ = (Ret _, _) |- _ =>
      apply fill_loop_inv in H as (? & ? & ? & ? & ? & ?)
  | H : for_each _ (fun x => for_each (gradient_segments _ _ x) _) _ = (Ret _, _) |- _ =>
      apply call_groups_inv in H as [? ?]; [| apply gradient_writes_nothing]
  end.

(** Chains the trace equations of a run back to its first world. *)
Ltac trace_chain :=
  repeat match goal with
  | H : trace ?x = _ |- context [trace ?x] => rewrite H; clear H
  end;
  rewrite <- ?app_assoc.

(** The same, through the destructuring of a pair of corners. *)
Ltac run_inv_pairs :=
  run_inv;
  repeat match goal with
  | b : (vertex * vertex)%type |- _ => destruct b as [[[? ?] ?] [[? ?] ?]]
  end;
  run_inv.

Ltac fs_chain :=
  repeat match goal with
  | H : fs ?x = _ |- context [fs ?x] => rewrite H; clear H
  end.

(** ** The projection and the drawings *)









Section Drawn.

Variable env : Collaborators.


End Drawn.

Section Drawings.

Variable env : Collaborators.



Lemma gradient_segments_starts (size : Z * Z) (margin : Z) (offsets : list Z) :
  segment_starts (map Call (flat_map (gradient_segments size margin) offsets)) =
  flat_map
    (fun offset =>
       [(margin + offset, margin - offset);
        (size.1 - margin + offset, margin - offset)])
    offsets.
Proof.
  induction offsets as [| offset rest IH]; [reflexivity |].
  cbn [flat_map]. rewrite map_app, segment_starts_app, IH. reflexivity.
Qed.

Lemma gradient_starts_on_diagonals (size : Z * Z) :
  Forall
    (fun '(x, y) =>
       21 <= y <= 50 /\ (x - 50 = 50 - y \/ x - (size.1 - 50) = 50 - y))
    (gradient_starts size 50).
Proof.
  unfold gradient_starts. apply Forall_flat_map, Forall_forall.
  intros offset Hin. apply list_elem_of_In, in_map_iff in Hin as (n & <- & Hn).
  apply in_seq in Hn. repeat constructor; lia.
Qed.

(** The two segments of one offset are the strokes at the two top corners of
    the rectangle, with the alpha the code computes for that offset. *)
Lemma gradient_segments_strokes (size : Z * Z) (margin : Z) (offsets : list Z) :
  segments (map Call (flat_map (gradient_segments size margin) offsets)) =
  flat_map
    (fun '(k, alpha) =>
       [highlight (margin, margin) k alpha;
        highlight (size.1 - margin, margin) k alpha])
    (combine offsets (map gradient_alpha offsets)).
Proof.
  induction offsets as [| offset rest IH]; [reflexivity |].
  cbn [flat_map map combine]. rewrite map_app, segments_app, IH. reflexivity.
Qed.

(** The thirty values of [int(255 * (1 - offset/30))] in binary64: at the
    offsets 24, 26 and 28 the rounded product falls just below the exact
    value 51, 34 and 17. *)
Lemma gradient_alpha_fading : map gradient_alpha (range 30) = fading.
Proof. vm_compute. reflexivity. Qed.

(** Every stroke is a horizontal segment one pixel long, between 0 and 29
    pixels above the corner it belongs to. *)
Lemma corner_gradient_strokes (left right : Z * Z) :
  Forall
    (fun seg : list Z * (Z * Z * Z * Z) =>
       exists k alpha,
         0 <= k < 30 /\ 8 <= alpha <= 255 /\
         (seg = highlight left k alpha \/ seg = highlight right k alpha))
    (corner_gradient left right).
Proof.
  unfold corner_gradient. apply Forall_flat_map, Forall_forall.
  intros [k alpha] Hin. apply list_elem_of_In in Hin.
  assert (Hk : 0 <= k < 30).
  { apply in_combine_l, in_map_iff in Hin as (n & <- & Hn). apply in_seq in Hn. lia. }
  assert (Ha : 8 <= alpha <= 255).
  { apply in_combine_r in Hin. unfold fading in Hin. simpl in Hin.
    repeat destruct Hin as [<- | Hin]; first [lia | contradiction]. }
  repeat constructor; eauto 10.
Qed.

(** C8, as amended.  A bounding-box render that returns True has drawn the
    rectangle inset by 50 and, as its only line segments, the strokes of the
    "3D" gradient at the two top corners of that rectangle: for each offset
    k = 0..29, in steel blue with an alpha fading from 255 to 8, one
    horizontal segment one pixel long from (50 + k, 50 - k), above the
    top-left corner (50, 50), and one from (width - 50 + k, 50 - k), above
    the top-right corner (width - 50, 50).  Every segment lies on or above
    the top edge, so that none is at a bottom corner when the rectangle has
    a height (image height above 100). *)
Theorem gradient_at_both_top_corners self stl_path output_path w w' :
  generate_preview_simple env self stl_path output_path w = (Ret true, w') ->
  exists t,
    trace w' = trace w ++ t /\
    In (DrawRectangle [50; 50; (image_size self).1 - 50; (image_size self).2 - 50])
       (calls t) /\
    segments t = corner_gradient (50, 50) ((image_size self).1 - 50, 50) /\
    segment_starts t = gradient_starts (image_size self) 50 /\
    Forall
      (fun '(x, y) =>
         21 <= y <= 50 /\
         (x - 50 = 50 - y \/ x - ((image_size self).1 - 50) = 50 - y))
      (segment_starts t) /\
    Forall
      (fun seg : list Z * (Z * Z * Z * Z) =>
         exists x y alpha,
           seg = ([x; y; x + 1; y], (70, 130, 180, alpha)) /\
           8 <= alpha <= 255 /\ 21 <= y <= 50 /\
           (x - 50 = 50 - y \/ x - ((image_size self).1 - 50) = 50 - y) /\
           (100 < (image_size self).2 -> y < (image_size self).2 - 50))
      (segments t).
Proof.
  intros Hr. apply (render_true_inv env BoundingBox) in Hr.
  simpl in Hr. unfold simple_steps in Hr. run_inv_pairs. subst. cbn [emit trace] in *.
  eexists. split; [trace_chain; reflexivity |].
  split.
  { unfold calls. rewrite !omap_app. cbn [omap]. apply in_app_iff. right.
    apply in_app_iff. right. apply in_app_iff. right. apply in_app_iff. right.
    left. reflexivity. }
  match goal with
  | |- segments ?t = _ /\ _ =>
      assert (Hsegs : segments t =
                      corner_gradient (50, 50) ((image_size self).1 - 50, 50))
  end.
  { rewrite !segments_app, gradient_segments_strokes, gradient_alpha_fading.
    fold (corner_gradient (50, 50) ((image_size self).1 - 50, 50)).
    generalize (corner_gradient (50, 50) ((image_size self).1 - 50, 50)).
    intros strokes. simpl. apply app_nil_r. }
  match goal with
  | |- _ /\ segment_starts ?t = _ /\ _ =>
      assert (Hstarts : segment_starts t = gradient_starts (image_size self) 50)
  end.
  { rewrite !segment_starts_app, gradient_segments_starts.
    fold (gradient_starts (image_size self) 50).
    generalize (gradient_starts (image_size self) 50). intros starts.
    simpl. apply app_nil_r. }
  rewrite Hsegs, Hstarts. split; [reflexivity |]. split; [reflexivity |].
  split; [apply gradient_starts_on_diagonals |].
  eapply Forall_impl; [apply corner_gradient_strokes |].
  intros seg (k & alpha & Hk & Ha & Hseg). unfold highlight in Hseg. simpl in Hseg.
  destruct Hseg as [-> | ->]; eexists _, _, _;
    (split; [reflexivity |]); repeat split; try lia.
Qed.

End Drawings.

(** ** The batch *)

Section Batch.

Variable env : Collaborators.

(** A strategy that returns True has written the destination. *)
Lemma render_true_writes s self stl_path output_path w w' :
  render env s self stl_path output_path w = (Ret true, w') ->
  is_Some (fs w' !! output_path).
Proof.
  intros Hr. apply render_true_inv in Hr.
  destruct s; simpl in Hr;
    unfold matplotlib_steps, wireframe_steps, simple_steps in Hr;
    run_inv_pairs; subst; cbn [emit fs] in *;
    repeat (fs_chain; cbn [written]);
    rewrite lookup_insert_eq; eauto.
Qed.

(** [generate_preview] leaves every file that exists as it is. *)
Lemma generate_preview_keeps self stl_path output_path w p :
  is_Some (fs w !! p) ->
  fs (generate_preview env self stl_path output_path w).2 !! p = fs w !! p.
Proof.
  intros Hp. destruct (decide (p = output_path)) as [-> | Hne].
  - rewrite generate_preview_skip by exact Hp. reflexivity.
  - destruct (fs w !! output_path) as [x |] eqn:Hdest.
    + rewrite generate_preview_skip by (rewrite Hdest; eauto). reflexivity.
    + destruct (generate_preview_matplotlib env self stl_path output_path w)
        as [r1 w1] eqn:H1.
      destruct (generate_preview_wireframe env self stl_path output_path w1)
        as [r2 w2] eqn:H2.
      destruct (generate_preview_simple env self stl_path output_path w2)
        as [r3 w3] eqn:H3.
      rewrite (generate_preview_cascade _ _ _ _ _ _ _ _ _ _ _ Hdest H1 H2 H3).
      destruct (cascade_invoked env self _ _ _ _ _ _ _ _ _ H1 H2 H3)
        as (t & (_ & Hframe & _) & _).
      apply Hframe, Hne.
Qed.

Lemma call_keeps (c : ext_call) (w : World) :
  written c = id -> fs (call env c w).2 = fs w.
Proof.
  intros Hc. unfold call. destruct (fault env c w); simpl; [reflexivity |].
  rewrite Hc. reflexivity.
Qed.

(** So does the loop over the files. *)
Lemma process_files_keeps generator output_dir stl_files w p :
  is_Some (fs w !! p) ->
  fs (process_files env generator output_dir stl_files w).2 !! p = fs w !! p.
Proof.
  revert generator w. induction stl_files as [| stl_path rest IH];
    intros generator w Hp; simpl; [reflexivity |].
  unfold bind at 1.
  pose proof (generate_preview_keeps generator stl_path
                (destination env output_dir stl_path) w p Hp) as Hk.
  destruct (generate_preview env generator stl_path
              (destination env output_dir stl_path) w) as [[g1 | e] w1];
    simpl in *; [| exact Hk].
  unfold bind at 1.
  pose proof (call_keeps PbarUpdate w1 eq_refl) as Hc.
  destruct (call env PbarUpdate w1) as [[[] | e] w1']; simpl in *.
  - rewrite IH by (rewrite Hc, Hk; exact Hp). rewrite Hc. exact Hk.
  - rewrite Hc. exact Hk.
Qed.

(** A file counted as a success has its preview on disk. *)
Lemma success_leaves_preview self stl_path output_path w self' w' :
  generate_preview env self stl_path output_path w = (Ret self', w') ->
  success_count self' = success_count self + 1 ->
  is_Some (fs w' !! output_path).
Proof.
  intros Hrun Hcount.
  destruct (fs w !! output_path) as [x |] eqn:Hdest.
  - rewrite generate_preview_skip in Hrun by (rewrite Hdest; eauto).
    injection Hrun as <- <-. simpl in Hcount. lia.
  - destruct (generate_preview_matplotlib env self stl_path output_path w)
      as [r1 w1] eqn:H1.
    destruct (generate_preview_wireframe env self stl_path output_path w1)
      as [r2 w2] eqn:H2.
    destruct (generate_preview_simple env self stl_path output_path w2)
      as [r3 w3] eqn:H3.
    rewrite (generate_preview_cascade _ _ _ _ _ _ _ _ _ _ _ Hdest H1 H2 H3) in Hrun.
    destruct r1 as [[|] | e1]; [| destruct r2 as [[|] | e2];
      [| destruct r3 as [[|] | e3] |] |]; simpl in Hrun;
      try discriminate; injection Hrun as <- <-; simpl in *; try lia.
    + apply (render_true_writes Surface _ _ _ _ _ H1).
    + apply (render_true_writes Wireframe _ _ _ _ _ H2).
    + apply (render_true_writes BoundingBox _ _ _ _ _ H3).
Qed.

(** Over a run of the loop that returns, the counters only grow and their
    sum grows by the number of files: one count per file. *)
Lemma generate_preview_counts self stl_path output_path w self' w' :
  generate_preview env self stl_path output_path w = (Ret self', w') ->
  self' = incr_success self \/ self' = incr_failure self \/ self' = incr_skipped self.
Proof.
  intros Hrun. destruct (fs w !! output_path) as [x |] eqn:Hdest.
  - rewrite generate_preview_skip in Hrun by (rewrite Hdest; eauto).
    injection Hrun as <- <-. auto.
  - destruct (generate_preview_matplotlib env self stl_path output_path w)
      as [r1 w1] eqn:H1.
    destruct (generate_preview_wireframe env self stl_path output_path w1)
      as [r2 w2] eqn:H2.
    destruct (generate_preview_simple env self stl_path output_path w2)
      as [r3 w3] eqn:H3.
    rewrite (generate_preview_cascade _ _ _ _ _ _ _ _ _ _ _ Hdest H1 H2 H3) in Hrun.
    destruct r1 as [[|] | e1]; [| destruct r2 as [[|] | e2];
      [| destruct r3 as [[|] | e3] |] |]; simpl in Hrun;
      try discriminate; injection Hrun as <- <-; auto.
Qed.

Lemma counters_over_a_run generator output_dir stl_files w generator' w' :
  process_files env generator output_dir stl_files w = (Ret generator', w') ->
  success_count generator <= success_count generator' /\
  failure_count generator <= failure_count generator' /\
  skipped_count generator <= skipped_count generator' /\
  success_count generator' + failure_count generator' + skipped_count generator' =
  success_count generator + failure_count generator + skipped_count generator
  + Z.of_nat (length stl_files).
Proof.
  revert generator w. induction stl_files as [| stl_path rest IH];
    intros generator w; simpl.
  - intros [=]; subst. lia.
  - intros Hrun. apply bind_ret_inv in Hrun as (g1 & w1 & Hone & Hrun).
    apply bind_ret_inv in Hrun as (? & w1' & _ & Hrun).
    apply IH in Hrun.
    apply generate_preview_counts in Hone as [-> | [-> | ->]]; simpl in Hrun; lia.
Qed.

(** X6. Over a run of the loop that returns, no counter goes down and the
    three counters together go up by the number of files: each file is
    counted exactly once. *)
Theorem every_file_is_counted_once generator output_dir stl_files w generator' w' :
  process_files env generator output_dir stl_files w = (Ret generator', w') ->
  success_count generator <= success_count generator' /\
  failure_count generator <= failure_count generator' /\
  skipped_count generator <= skipped_count generator' /\
  success_count generator' + failure_count generator' + skipped_count generator' =
  success_count generator + failure_count generator + skipped_count generator
  + Z.of_nat (length stl_files).
Proof. apply counters_over_a_run. Qed.

(** X7. A file that [generate_preview] counts as a success has its preview
    at the destination when the call returns. *)
Theorem counted_success_has_a_preview self stl_path output_path w self' w' :
  generate_preview env self stl_path output_path w = (Ret self', w') ->
  success_count self' = success_count self + 1 ->
  is_Some (fs w' !! output_path).
Proof. apply success_leaves_preview. Qed.

(** C10. The destination depends on the input path only through its base
    name, so two inputs with the same base name have the same destination.
    In one run, once the first of them has left an image at that
    destination, the files processed after it leave that image as it is,
    and when the turn of the second comes it is skipped, with no event but
    the "already exists" line (no mesh load, no rendering). *)
Theorem same_basename_same_destination
    output_dir first second between generator w g1 w1 g2 w2 :
  basename env first = basename env second ->
  generate_preview env generator first (destination env output_dir first) w
    = (Ret g1, w1) ->
  is_Some (fs w1 !! destination env output_dir first) ->
  process_files env generator output_dir (first :: between) w = (Ret g2, w2) ->
  destination env output_dir second = destination env output_dir first /\
  fs w2 !! destination env output_dir first = fs w1 !! destination env output_dir first /\
  generate_preview env g2 second (destination env output_dir second) w2
    = (Ret (incr_skipped g2), emit (Log (AlreadyExists (basename env second))) w2).
Proof.
  intros Hbase Hfirst Hex Hloop.
  assert (Hdest : destination env output_dir second = destination env output_dir first)
    by (unfold destination; rewrite Hbase; reflexivity).
  assert (Hkept : fs w2 !! destination env output_dir first
                  = fs w1 !! destination env output_dir first).
  { simpl in Hloop. unfold bind at 1 in Hloop. rewrite Hfirst in Hloop.
    unfold bind at 1 in Hloop.
    pose proof (call_keeps PbarUpdate w1 eq_refl) as Hc.
    destruct (call env PbarUpdate w1) as [[[] | e] w1'] eqn:Hbar;
      [| discriminate]. simpl in Hc.
    pose proof (process_files_keeps g1 output_dir between w1'
                  (destination env output_dir first)) as Hk.
    rewrite Hloop in Hk. simpl in Hk. rewrite Hk by (rewrite Hc; exact Hex).
    rewrite Hc. reflexivity. }
  split; [exact Hdest |]. split; [exact Hkept |].
  apply generate_preview_skip. rewrite Hdest, Hkept. exact Hex.
Qed.

(** C3, as amended.  When the set-up and the scan of [main] complete (the
    backend switch, the creation of the output directory and the walk raise
    nothing): with no file found the exit status is 0; with files found, the
    progress bar opened and closed and the loop run to its end, the exit
    status is 1 exactly when the failure counter is above zero and 0
    otherwise, whatever the skipped counter holds.  The log lines are taken
    to be printed, see [log_info]. *)
Theorem exit_status_reflects_failures
    input_dir output_dir size w stl_files w1 generator w2 :
  (call env SwitchBackendAgg ;;; call env (Makedirs output_dir) ;;;
   find_stl_files env input_dir) w = (Ret stl_files, w1) ->
  (stl_files <> [] ->
   with_tqdm env (Z.of_nat (length stl_files))
     (process_files env (init size) output_dir stl_files)
     (emit (Log (FoundFiles (Z.of_nat (length stl_files)))) w1)
   = (Ret generator, w2)) ->
  let status := exit_status (main env input_dir output_dir size w).1 in
  (stl_files = [] -> status = 0) /\
  (stl_files <> [] ->
   (status = 1 <-> 0 < failure_count generator) /\
   (status <> 0 <-> 0 < failure_count generator) /\
   (failure_count generator = 0 -> status = 0)).
Proof.
  intros Hsetup Hloop. simpl.
  assert (Hmain : main env input_dir output_dir size w =
    match stl_files with
    | [] => (log_info NoFilesFound ;;; ret tt) w1
    | _ :: _ =>
        (log_info SummaryHeader ;;;
         log_info (SummaryTotal (Z.of_nat (length stl_files))) ;;;
         log_info (SummarySuccess (success_count generator)) ;;;
         log_info (SummaryFailed (failure_count generator)) ;;;
         log_info (SummarySkipped (skipped_count generator)) ;;;
         log_info SummaryTime ;;;
         if failure_count generator >? 0 then raise (SystemExit 1) else ret tt) w2
    end).
  { unfold main. unfold bind at 1 2 3. unfold bind at 1 2 in Hsetup.
    destruct (call env SwitchBackendAgg w) as [[[] | ?] wa]; [| discriminate].
    destruct (call env (Makedirs output_dir) wa) as [[[] | ?] wb]; [| discriminate].
    destruct (find_stl_files env input_dir wb) as [[found | ?] wc]; [| discriminate].
    injection Hsetup as -> ->.
    destruct stl_files as [| f rest]; [reflexivity |].
    unfold bind at 1. cbn [log_info]. unfold bind at 1.
    rewrite Hloop by discriminate. reflexivity. }
  rewrite Hmain. destruct stl_files as [| f rest].
  - split; [reflexivity | congruence].
  - split; [discriminate | intros _].
    unfold bind, log_info. destruct (Z.gtb_spec (failure_count generator) 0);
      simpl; repeat split; intros; try lia; try discriminate.
Qed.

End Batch.

(** * Further properties *)

(** ** File discovery *)

#[local] Arguments String.append !s1 s2 : simpl nomatch.

Lemma substring_all (s : string) : substring 0 (String.length s) s = s.
Proof. induction s as [| c s IH]; simpl; [reflexivity | rewrite IH; reflexivity]. Qed.

Lemma substring_suffix (pre suf : string) :
  substring (String.length pre) (String.length suf) (pre ++ suf)%string = suf.
Proof. induction pre as [| c pre IH]; simpl; [apply substring_all | exact IH]. Qed.

Lemma substring_split (s : string) (i : nat) :
  (i <= String.length s)%nat ->
  s = (substring 0 i s ++ substring i (String.length s - i) s)%string.
Proof.
  revert i. induction s as [| c s IH]; intros i Hi; simpl in *.
  - destruct i; [reflexivity | lia].
  - destruct i as [| i]; simpl.
    + rewrite substring_all. reflexivity.
    + rewrite <- IH by lia. reflexivity.
Qed.

Lemma string_length_app (a b : string) :
  String.length (a ++ b)%string = (String.length a + String.length b)%nat.
Proof. induction a as [| c a IH]; simpl; [reflexivity | rewrite IH; reflexivity]. Qed.

(** [s.endswith(suffix)] holds exactly when [s] is some prefix followed by
    [suffix]. *)
Lemma str_endswith_spec (s suffix : string) :
  str_endswith s suffix = true <-> exists prefix, s = (prefix ++ suffix)%string.
Proof.
  unfold str_endswith. split.
  - intros H. apply andb_true_iff in H as [Hlen Heq].
    apply Nat.leb_le in Hlen. apply String.eqb_eq in Heq.
    exists (substring 0 (String.length s - String.length suffix) s).
    pose proof (substring_split s (String.length s - String.length suffix)) as Hs.
    replace (String.length s - (String.length s - String.length suffix))%nat
      with (String.length suffix) in Hs by lia.
    rewrite Heq in Hs. apply Hs. lia.
  - intros [prefix ->]. rewrite string_length_app. apply andb_true_iff. split.
    + apply Nat.leb_le. lia.
    + replace (String.length prefix + String.length suffix - String.length suffix)%nat
        with (String.length prefix) by lia.
      rewrite substring_suffix. apply String.eqb_refl.
Qed.

Lemma str_lower_app (a b : string) :
  str_lower (a ++ b)%string = (str_lower a ++ str_lower b)%string.
Proof. induction a as [| c a IH]; simpl; [reflexivity | rewrite IH; reflexivity]. Qed.

Lemma str_lower_split (s a' b' : string) :
  str_lower s = (a' ++ b')%string ->
  exists a b, s = (a ++ b)%string /\ str_lower a = a' /\ str_lower b = b'.
Proof.
  revert s. induction a' as [| c a' IH]; intros s H; simpl in H.
  - exists EmptyString, s. auto.
  - destruct s as [| d s]; simpl in H; [discriminate |].
    injection H as Hc Hs. destruct (IH s Hs) as (a & b & -> & Ha & Hb).
    exists (String d a), b. simpl. rewrite Ha, Hc. auto.
Qed.


Lemma stl_name_test_lower (file : string) :
  str_endswith (str_lower file) ".stl" = true <->
  exists stem ext, file = (stem ++ ext)%string /\ str_lower ext = ".stl".
Proof.
  rewrite str_endswith_spec. split.
  - intros [prefix Hlow]. apply str_lower_split in Hlow as (a & b & -> & _ & Hb).
    eauto.
  - intros (stem & ext & -> & Hext). exists (str_lower stem).
    rewrite str_lower_app, Hext. reflexivity.
Qed.

(** Which characters [lower] maps to the four characters of the extension:
    the character itself and, for a letter, its capital. *)
Ltac lower_cases c :=
  destruct c as [[] [] [] [] [] [] [] []]; vm_compute;
  (split; [intros ?; first [discriminate | auto] | intros ?]);
  first [reflexivity | intuition discriminate].

Lemma lower_is_dot (c : ascii) : lower_ascii c = "."%char <-> c = "."%char.
Proof. lower_cases c. Qed.

Lemma lower_is_s (c : ascii) :
  lower_ascii c = "s"%char <-> c = "s"%char \/ c = "S"%char.
Proof. lower_cases c. Qed.

Lemma lower_is_t (c : ascii) :
  lower_ascii c = "t"%char <-> c = "t"%char \/ c = "T"%char.
Proof. lower_cases c. Qed.

Lemma lower_is_l (c : ascii) :
  lower_ascii c = "l"%char <-> c = "l"%char \/ c = "L"%char.
Proof. lower_cases c. Qed.

(** X1. The test [file.lower().endswith('.stl')] accepts exactly the names
    that end in a dot followed by [s] or [S], [t] or [T], [l] or [L]: the
    extension [.stl] in any of its eight spellings.  The stem before it may
    be anything, also empty. *)
Theorem stl_name_test (file : string) :
  str_endswith (str_lower file) ".stl" = true <->
  exists stem s t l,
    file = (stem ++ String "." (String s (String t (String l EmptyString))))%string /\
    (s = "s" \/ s = "S")%char /\ (t = "t" \/ t = "T")%char /\ (l = "l" \/ l = "L")%char.
Proof.
  rewrite stl_name_test_lower. split.
  - intros (stem & ext & -> & Hext).
    destruct ext as [| c1 [| c2 [| c3 [| c4 [| c5 rest]]]]]; simpl in Hext;
      try discriminate.
    injection Hext as H1 H2 H3 H4.
    apply lower_is_dot in H1 as ->.
    apply lower_is_s in H2. apply lower_is_t in H3. apply lower_is_l in H4.
    exists stem, c2, c3, c4. auto.
  - intros (stem & s & t & l & -> & Hs & Ht & Hl).
    eexists stem, _. split; [reflexivity |]. simpl.
    apply lower_is_s in Hs as ->. apply lower_is_t in Ht as ->.
    apply lower_is_l in Hl as ->. reflexivity.
Qed.

Section Discovery.

Variable env : Collaborators.

(** X2. A scan that returns has printed its one line and walked the tree once,
    has touched no file, and has found exactly the paths [join(root, file)]
    of the walked files whose name passes the extension test. *)
Theorem find_stl_files_finds base_path w found w' :
  find_stl_files env base_path w = (Ret found, w') ->
  trace w' = trace w ++ [Log (Scanning base_path); Call (OsWalk base_path)] /\
  fs w' = fs w /\
  forall p,
    In p found <->
    exists root files file,
      In (root, files) (walked env base_path w') /\
      In file files /\
      str_endswith (str_lower file) ".stl" = true /\
      p = join env root file.
Proof.
  unfold find_stl_files. intros Hrun.
  apply bind_ret_inv in Hrun as (? & w1 & Hlog & Hrun).
  apply log_info_inv in Hlog. subst w1.
  apply bind_ret_inv in Hrun as (? & w2 & Hcall & Hrun).
  apply call_ret_inv in Hcall as [Ht Hf]. injection Hrun as <- <-.
  split; [rewrite Ht; simpl; rewrite <- app_assoc; reflexivity |].
  split; [rewrite Hf; reflexivity |].
  intros p. rewrite in_flat_map. split.
  - intros ([root files] & Hin & Hp). apply in_map_iff in Hp as (file & <- & Hfile).
    apply filter_In in Hfile as [Hfile Htest]. eauto 10.
  - intros (root & files & file & Hin & Hfile & Htest & ->).
    exists (root, files). split; [exact Hin |].
    apply in_map_iff. exists file. split; [reflexivity |].
    apply filter_In. auto.
Qed.

End Discovery.


(** ** What the pipeline and the loop leave behind *)

Section Outcomes.

Variable env : Collaborators.

Lemma attempt_raise_inv s name e l :
  attempt s name (Raise e) l -> isinstance_Exception e = false.
Proof. inversion 1; assumption. Qed.

(** X3. As long as its log lines are printed, [generate_preview] raises no
    instance of [Exception]: whatever a library call raises inside a strategy
    either is turned into False by the handler or is no [Exception] and
    passes the handler untouched.  (The [print] calls of the handlers and of
    [generate_preview] itself stand outside every [try]; they are taken to
    succeed, see [log_info].) *)
Theorem generate_preview_raises_no_Exception self stl_path output_path w e w' :
  generate_preview env self stl_path output_path w = (Raise e, w') ->
  isinstance_Exception e = false.
Proof.
  intros Hrun. destruct (fs w !! output_path) as [x |] eqn:Hdest.
  - rewrite generate_preview_skip in Hrun by (rewrite Hdest; eauto). discriminate.
  - destruct (generate_preview_matplotlib env self stl_path output_path w)
      as [r1 w1] eqn:H1.
    destruct (generate_preview_wireframe env self stl_path output_path w1)
      as [r2 w2] eqn:H2.
    destruct (generate_preview_simple env self stl_path output_path w2)
      as [r3 w3] eqn:H3.
    rewrite (generate_preview_cascade _ _ _ _ _ _ _ _ _ _ _ Hdest H1 H2 H3) in Hrun.
    destruct (matplotlib_attempt env self stl_path output_path w) as (t1 & _ & A1).
    destruct (wireframe_attempt env self stl_path output_path w1) as (t2 & _ & A2).
    destruct (simple_attempt env self stl_path output_path w2) as (t3 & _ & A3).
    rewrite H1 in A1. rewrite H2 in A2. rewrite H3 in A3. simpl in *.
    destruct r1 as [[|] | e1]; [| destruct r2 as [[|] | e2];
      [| destruct r3 as [[|] | e3] |] |]; simpl in Hrun;
      try discriminate; injection Hrun as <- <-;
      eapply attempt_raise_inv; eassumption.
Qed.

Lemma generate_preview_only_creates_destination_aux self stl_path output_path w p :
  fs (generate_preview env self stl_path output_path w).2 !! p = fs w !! p \/
  (p = output_path /\ fs w !! p = None /\
   is_Some (fs (generate_preview env self stl_path output_path w).2 !! p)).
Proof.
  destruct (fs w !! p) as [x |] eqn:Hp.
  - left. rewrite generate_preview_keeps by (rewrite Hp; eauto). exact Hp.
  - destruct (decide (p = output_path)) as [-> | Hne].
    + destruct (fs (generate_preview env self stl_path output_path w).2 !! output_path)
        as [y |] eqn:Hafter; [right; eauto | left; reflexivity].
    + left. rewrite <- Hp.
      destruct (generate_preview_matplotlib env self stl_path output_path w)
        as [r1 w1] eqn:H1.
      destruct (generate_preview_wireframe env self stl_path output_path w1)
        as [r2 w2] eqn:H2.
      destruct (generate_preview_simple env self stl_path output_path w2)
        as [r3 w3] eqn:H3.
      destruct (fs w !! output_path) as [z |] eqn:Hdest.
      * rewrite generate_preview_skip by (rewrite Hdest; eauto). reflexivity.
      * rewrite (generate_preview_cascade _ _ _ _ _ _ _ _ _ _ _ Hdest H1 H2 H3).
        destruct (cascade_invoked env self _ _ _ _ _ _ _ _ _ H1 H2 H3)
          as (t & (_ & Hframe & _) & _).
        apply Hframe, Hne.
Qed.

(** X4. The only change [generate_preview] can make to the file system is
    to create its destination: every path keeps what it held, except that
    the destination, if it was absent, may now exist. *)
Theorem generate_preview_only_creates_destination self stl_path output_path w p :
  fs (generate_preview env self stl_path output_path w).2 !! p = fs w !! p \/
  (p = output_path /\ fs w !! p = None /\
   is_Some (fs (generate_preview env self stl_path output_path w).2 !! p)).
Proof. apply generate_preview_only_creates_destination_aux. Qed.

Lemma process_files_cons generator output_dir stl_path rest w :
  process_files env generator output_dir (stl_path :: rest) w =
  match generate_preview env generator stl_path
          (destination env output_dir stl_path) w with
  | (Ret generator', w1) =>
      match call env PbarUpdate w1 with
      | (Ret _, w2) => process_files env generator' output_dir rest w2
      | (Raise e, w2) => (Raise e, w2)
      end
  | (Raise e, w1) => (Raise e, w1)
  end.
Proof. reflexivity. Qed.

(** X5. The loop over the files changes nothing that exists: every path
    keeps what it held, except that a path that was absent and is the
    destination of one of the inputs may now exist. *)
Theorem process_files_only_creates_destinations generator output_dir stl_files w p :
  fs (process_files env generator output_dir stl_files w).2 !! p = fs w !! p \/
  (fs w !! p = None /\
   (exists stl_path, In stl_path stl_files /\ p = destination env output_dir stl_path) /\
   is_Some (fs (process_files env generator output_dir stl_files w).2 !! p)).
Proof.
  destruct (decide (is_Some (fs w !! p))) as [Hp | Hp].
  - left. apply process_files_keeps, Hp.
  - assert (Hnone : fs w !! p = None)
      by (destruct (fs w !! p); [exfalso; eauto | reflexivity]).
    clear Hp. revert generator w Hnone.
    induction stl_files as [| stl_path rest IH]; intros generator w Hnone;
      [left; reflexivity |].
    rewrite process_files_cons.
    pose proof (generate_preview_only_creates_destination_aux generator stl_path
                  (destination env output_dir stl_path) w p) as Hone.
    destruct (generate_preview env generator stl_path
                (destination env output_dir stl_path) w) as [[g1 | e] w1];
      simpl in Hone.
    + pose proof (call_keeps env PbarUpdate w1 eq_refl) as Hc.
      destruct (call env PbarUpdate w1) as [[[] | e] w2]; simpl in Hc.
      * destruct Hone as [Hsame | (-> & _ & Hnew)].
        -- destruct (IH g1 w2) as [Hk | (_ & (q & Hq & Hdest) & Hsome)].
           ++ rewrite Hc, Hsame. exact Hnone.
           ++ left. rewrite Hk, Hc. exact Hsame.
           ++ right. split; [exact Hnone |]. split; [| exact Hsome].
              exists q. split; [right; exact Hq | exact Hdest].
        -- right. split; [exact Hnone |]. split.
           ++ exists stl_path. split; [left; reflexivity | reflexivity].
           ++ rewrite process_files_keeps by (rewrite Hc; exact Hnew).
              rewrite Hc. exact Hnew.
      * simpl. rewrite Hc. destruct Hone as [Hsame | (-> & _ & Hnew)].
        -- left. exact Hsame.
        -- right. split; [exact Hnone |]. split; [| exact Hnew].
           exists stl_path. split; [left; reflexivity | reflexivity].
    + simpl. destruct Hone as [Hsame | (-> & _ & Hnew)].
      * left. exact Hsame.
      * right. split; [exact Hnone |]. split; [| exact Hnew].
        exists stl_path. split; [left; reflexivity | reflexivity].
Qed.

End Outcomes.


(** ** Runs in which the libraries raise only ordinary errors *)

Section Tame.

Variable env : Collaborators.

(** Every exception a library call raises is an instance of [Exception]. *)
Hypothesis ordinary_faults :
  forall c w e, fault env c w = Some e -> isinstance_Exception e = true.

Lemma tame_ret {A} (a : A) : tame (ret a).
Proof. intros w e w' [=]. Qed.

Lemma tame_bind {A B} (m : M A) (k : A -> M B) :
  tame m -> (forall a, tame (k a)) -> tame (bind m k).
Proof.
  intros Hm Hk w e w'. unfold bind.
  destruct (m w) as [[a | e0] w1] eqn:Hrun.
  - apply Hk.
  - intros [= <- <-]. eapply Hm, Hrun.
Qed.

Lemma tame_log_info (m : message) : tame (log_info m).
Proof. intros w e w' [=]. Qed.

Lemma tame_call (c : ext_call) : tame (call env c).
Proof.
  intros w e w'. unfold call. destruct (fault env c w) eqn:Hf; intros [=]; subst.
  eapply ordinary_faults, Hf.
Qed.

Lemma tame_load_mesh (stl_path : string) : tame (load_mesh env stl_path).
Proof.
  intros w e w'. unfold load_mesh.
  destruct (call env (LoadMesh stl_path) w) as [[[] | e0] w1] eqn:Hc; intros [=]; subst.
  eapply tame_call, Hc.
Qed.

Lemma tame_getattr {A} (name : string) (field : option A) : tame (getattr name field).
Proof. destruct field; intros w e w' [=]; subst; reflexivity. Qed.

Lemma tame_or_raise {A} (cls : string) (o : option A) : tame (or_raise cls o).
Proof. destruct o; intros w e w' [=]; subst; reflexivity. Qed.

Lemma tame_for_each {A} (xs : list A) (body : A -> M unit) :
  (forall x, tame (body x)) -> tame (for_each xs body).
Proof.
  intros Hbody. induction xs as [| x rest IH]; simpl.
  - apply tame_ret.
  - apply tame_bind; [apply Hbody | intros _; exact IH].
Qed.

Lemma tame_steps s self stl_path output_path :
  tame (steps env s self stl_path output_path).
Proof.
  destruct s; simpl;
    unfold matplotlib_steps, wireframe_steps, simple_steps, plot_edges, fill_face;
    repeat first
      [ apply tame_bind; [| intros ?]
      | apply tame_ret
      | apply tame_log_info
      | apply tame_call
      | apply tame_load_mesh
      | apply tame_getattr
      | apply tame_or_raise
      | apply tame_for_each; intros ?
      | progress cbv zeta
      | match goal with |- tame (let '(_, _) := ?b in _) => destruct b end ].
Qed.

Lemma render_returns s self stl_path output_path w :
  exists b w', render env s self stl_path output_path w = (Ret b, w').
Proof.
  pose proof (render_by_cases env s self stl_path output_path w) as Hc.
  destruct (steps env s self stl_path output_path w) as [[b | e] w1] eqn:Hrun.
  - destruct Hc as [_ Hc]. eauto.
  - rewrite (tame_steps _ _ _ _ _ _ _ Hrun) in Hc. eauto.
Qed.

Lemma generate_preview_returns self stl_path output_path w :
  exists self' w', generate_preview env self stl_path output_path w = (Ret self', w').
Proof.
  destruct (fs w !! output_path) as [x |] eqn:Hdest.
  - rewrite generate_preview_skip by (rewrite Hdest; eauto). eauto.
  - destruct (render_returns Surface self stl_path output_path w) as (b1 & w1 & H1).
    destruct (render_returns Wireframe self stl_path output_path w1) as (b2 & w2 & H2).
    destruct (render_returns BoundingBox self stl_path output_path w2) as (b3 & w3 & H3).
    simpl in H1, H2, H3.
    rewrite (generate_preview_cascade _ _ _ _ _ _ _ _ _ _ _ Hdest H1 H2 H3).
    destruct b1, b2, b3; simpl; eauto.
Qed.

(** X8. When the libraries raise only instances of [Exception], the progress
    bar raises nothing and every log line is printed (see [log_info]), the
    loop over the files always runs to its end: no file, however broken,
    stops the batch, and every file is counted once. *)
Theorem process_files_runs_to_its_end generator output_dir stl_files w :
  (forall w0, fault env PbarUpdate w0 = None) ->
  exists generator' w',
    process_files env generator output_dir stl_files w = (Ret generator', w') /\
    success_count generator' + failure_count generator' + skipped_count generator' =
    success_count generator + failure_count generator + skipped_count generator
    + Z.of_nat (length stl_files).
Proof.
  intros Hbar. revert generator w.
  induction stl_files as [| stl_path rest IH]; intros generator w.
  - exists generator, w. split; [reflexivity | simpl; lia].
  - rewrite process_files_cons.
    destruct (generate_preview_returns generator stl_path
                (destination env output_dir stl_path) w) as (g1 & w1 & Hone).
    rewrite Hone. unfold call. rewrite Hbar.
    destruct (IH g1 (mkWorld (written PbarUpdate (fs w1)) (trace w1 ++ [Call PbarUpdate])))
      as (g' & w' & Hrest & Hsum).
    exists g', w'. split; [exact Hrest |].
    apply generate_preview_counts in Hone as [-> | [-> | ->]];
      simpl in Hsum; rewrite Hsum; simpl length; lia.
Qed.

End Tame.


(** ** The driver *)

Section Driver.

Variable env : Collaborators.

Lemma bind3_run {A B} (m1 m2 : M unit) (m3 : M A) (k : A -> M B) (w : World) :
  (m1 ;;; m2 ;;; x <- m3 ;; k x) w =
  match (m1 ;;; m2 ;;; m3) w with
  | (Ret a, w1) => k a w1
  | (Raise e, w1) => (Raise e, w1)
  end.
Proof.
  unfold bind. destruct (m1 w) as [[[] | ?] wa]; [| reflexivity].
  destruct (m2 wa) as [[[] | ?] wb]; [| reflexivity].
  destruct (m3 wb) as [[a | ?] wc]; reflexivity.
Qed.

Lemma main_cases input_dir output_dir size w :
  main env input_dir output_dir size w =
  match (call env SwitchBackendAgg ;;; call env (Makedirs output_dir) ;;;
         find_stl_files env input_dir) w with
  | (Raise e, w1) => (Raise e, w1)
  | (Ret [], w1) => (Ret tt, emit (Log NoFilesFound) w1)
  | (Ret (first :: rest), w1) =>
      let total := Z.of_nat (length (first :: rest)) in
      match with_tqdm env total
              (process_files env (init size) output_dir (first :: rest))
              (emit (Log (FoundFiles total)) w1) with
      | (Raise e, w2) => (Raise e, w2)
      | (Ret generator, w2) =>
          (log_info SummaryHeader ;;;
           log_info (SummaryTotal total) ;;;
           log_info (SummarySuccess (success_count generator)) ;;;
           log_info (SummaryFailed (failure_count generator)) ;;;
           log_info (SummarySkipped (skipped_count generator)) ;;;
           log_info SummaryTime ;;;
           if failure_count generator >? 0 then raise (SystemExit 1) else ret tt) w2
      end
  end.
Proof.
  unfold main.
  rewrite (bind3_run (call env SwitchBackendAgg) (call env (Makedirs output_dir))
             (find_stl_files env input_dir)).
  destruct ((call env SwitchBackendAgg ;;; call env (Makedirs output_dir) ;;;
             find_stl_files env input_dir) w) as [[[| first rest] | e] w1];
    reflexivity.
Qed.

(** X10. When the scan finds nothing, [main] returns normally after five
    events: the backend switch, the creation of the output directory, the
    scan line, the walk, and the "no files" line.  It opens no progress bar,
    enters no strategy and leaves every file as it was. *)
Theorem main_without_files input_dir output_dir size w w1 :
  (call env SwitchBackendAgg ;;; call env (Makedirs output_dir) ;;;
   find_stl_files env input_dir) w = (Ret [], w1) ->
  exists w',
    main env input_dir output_dir size w = (Ret tt, w') /\
    trace w' =
      trace w ++ [Call SwitchBackendAgg; Call (Makedirs output_dir);
                  Log (Scanning input_dir); Call (OsWalk input_dir);
                  Log NoFilesFound] /\
    fs w' = fs w.
Proof.
  intros Hsetup. rewrite main_cases, Hsetup. eexists. split; [reflexivity |].
  unfold find_stl_files in Hsetup. run_inv.
  match goal with H : _ = (Ret [], w1) |- _ => injection H as _ -> end.
  subst. cbn [emit trace fs] in *. split.
  - trace_chain. reflexivity.
  - repeat (fs_chain; cbn [written]). reflexivity.
Qed.

(** X11. [main] has no handler around its set-up: when the creation of the
    output directory raises, [main] raises the same exception at once, before
    any scan. *)
Theorem main_raises_what_makedirs_raises input_dir output_dir size w e :
  fault env SwitchBackendAgg w = None ->
  fault env (Makedirs output_dir) (emit (Call SwitchBackendAgg) w) = Some e ->
  main env input_dir output_dir size w =
  (Raise e, emit (Call (Makedirs output_dir)) (emit (Call SwitchBackendAgg) w)).
Proof.
  intros Hbackend Hmk. rewrite main_cases. unfold bind at 1. unfold call at 1.
  rewrite Hbackend. unfold bind at 1. unfold call at 1.
  change (mkWorld (written SwitchBackendAgg (fs w)) (trace w ++ [Call SwitchBackendAgg]))
    with (emit (Call SwitchBackendAgg) w).
  rewrite Hmk. reflexivity.
Qed.

(** X12. When the loop over the files raises, [main] closes the progress bar
    and raises too, without printing the summary: it raises the exception of
    the loop unless closing the bar raised one of its own. *)
Theorem main_stops_with_the_loop
    input_dir output_dir size w first rest w1 e w2 :
  (call env SwitchBackendAgg ;;; call env (Makedirs output_dir) ;;;
   find_stl_files env input_dir) w = (Ret (first :: rest), w1) ->
  fault env (TqdmEnter (Z.of_nat (length (first :: rest))))
    (emit (Log (FoundFiles (Z.of_nat (length (first :: rest))))) w1) = None ->
  process_files env (init size) output_dir (first :: rest)
    (emit (Call (TqdmEnter (Z.of_nat (length (first :: rest)))))
       (emit (Log (FoundFiles (Z.of_nat (length (first :: rest))))) w1))
  = (Raise e, w2) ->
  main env input_dir output_dir size w =
  (Raise (default e (fault env TqdmExit w2)), emit (Call TqdmExit) w2).
Proof.
  intros Hsetup Henter Hloop. rewrite main_cases, Hsetup. cbv zeta.
  unfold with_tqdm. unfold bind at 1. unfold call at 1. rewrite Henter.
  change (mkWorld (written ?c (fs ?x)) (trace ?x ++ [Call ?c]))
    with (emit (Call c) x).
  rewrite Hloop. unfold bind, call, raise.
  destruct (fault env TqdmExit w2); reflexivity.
Qed.

End Driver.


(** ** Reruns and the image size *)

Section Reruns.

Variable env : Collaborators.

Lemma present_previews_are_skipped generator output_dir stl_files w :
  Forall (fun stl_path => is_Some (fs w !! destination env output_dir stl_path))
    stl_files ->
  fs (process_files env generator output_dir stl_files w).2 = fs w /\
  (exists t,
     trace (process_files env generator output_dir stl_files w).2 = trace w ++ t /\
     invoked t = [] /\ loads t = []) /\
  (forall generator',
     (process_files env generator output_dir stl_files w).1 = Ret generator' ->
     skipped_count generator' = skipped_count generator + Z.of_nat (length stl_files) /\
     success_count generator' = success_count generator /\
     failure_count generator' = failure_count generator).
Proof.
  intros Hall. revert generator w Hall.
  induction stl_files as [| stl_path rest IH]; intros generator w Hall.
  - simpl. split; [reflexivity |]. split.
    + exists []. rewrite app_nil_r. auto.
    + intros g' [= <-]. lia.
  - apply Forall_cons in Hall as [Hfirst Hrest].
    rewrite process_files_cons, generate_preview_skip by exact Hfirst.
    unfold call. destruct (fault env PbarUpdate _) as [e |]; simpl.
    + split; [reflexivity |]. split; [| intros g' [=]].
      eexists. rewrite <- app_assoc. split; [reflexivity |]. split; reflexivity.
    + match goal with
      | |- context [process_files env ?g output_dir rest ?w1] =>
          destruct (IH g w1) as (Hfs & (t & Ht & Hinv & Hloads) & Hcount);
            [exact Hrest |]
      end.
      split; [rewrite Hfs; reflexivity |]. split.
      * eexists. rewrite Ht. simpl. rewrite <- !app_assoc.
        split; [reflexivity |]. split.
        -- rewrite !invoked_app, Hinv. reflexivity.
        -- unfold loads in *. rewrite !calls_app, !omap_app, Hloads. reflexivity.
      * intros g' Hg'. apply Hcount in Hg' as (Hk & Hs & Hf). simpl in *.
        rewrite Hk, Hs, Hf. repeat split; lia.
Qed.

(** X9. When the destination of every input already exists, the loop renders
    nothing: whether it runs to its end or the progress bar stops it, it
    leaves the file system as it was, loads no mesh and enters no strategy;
    and if it returns, it has counted every file as skipped and none as a
    success or a failure. *)
Theorem rerun_skips_every_file generator output_dir stl_files w :
  Forall (fun stl_path => is_Some (fs w !! destination env output_dir stl_path))
    stl_files ->
  fs (process_files env generator output_dir stl_files w).2 = fs w /\
  (exists t,
     trace (process_files env generator output_dir stl_files w).2 = trace w ++ t /\
     invoked t = [] /\ loads t = []) /\
  (forall generator',
     (process_files env generator output_dir stl_files w).1 = Ret generator' ->
     skipped_count generator' = skipped_count generator + Z.of_nat (length stl_files) /\
     success_count generator' = success_count generator /\
     failure_count generator' = failure_count generator).
Proof. apply present_previews_are_skipped. Qed.

(** A call of [generate_preview] that returns without counting a failure
    leaves a preview at its destination. *)
Lemma counted_file_has_preview self stl_path output_path w self' w' :
  generate_preview env self stl_path output_path w = (Ret self', w') ->
  failure_count self' = failure_count self ->
  is_Some (fs w' !! output_path).
Proof.
  intros Hrun Hcount.
  destruct (fs w !! output_path) as [x |] eqn:Hdest.
  - rewrite generate_preview_skip in Hrun by (rewrite Hdest; eauto).
    injection Hrun as <- <-. simpl. rewrite Hdest. eauto.
  - destruct (generate_preview_matplotlib env self stl_path output_path w)
      as [r1 w1] eqn:H1.
    destruct (generate_preview_wireframe env self stl_path output_path w1)
      as [r2 w2] eqn:H2.
    destruct (generate_preview_simple env self stl_path output_path w2)
      as [r3 w3] eqn:H3.
    rewrite (generate_preview_cascade _ _ _ _ _ _ _ _ _ _ _ Hdest H1 H2 H3) in Hrun.
    destruct r1 as [[|] | e1]; [| destruct r2 as [[|] | e2];
      [| destruct r3 as [[|] | e3] |] |]; simpl in Hrun;
      try discriminate; injection Hrun as <- <-; simpl in *; try lia.
    + apply (render_true_writes env Surface _ _ _ _ _ H1).
    + apply (render_true_writes env Wireframe _ _ _ _ _ H2).
    + apply (render_true_writes env BoundingBox _ _ _ _ _ H3).
Qed.

(** X18. After a run of the loop that returns with no failure counted, the
    destination of every input exists; so a second run over the same inputs
    renders nothing: it leaves the file system as it is, loads no mesh and
    enters no strategy. *)
Theorem clean_run_is_idempotent generator output_dir stl_files w g1 w1 g2 :
  process_files env generator output_dir stl_files w = (Ret g1, w1) ->
  failure_count g1 = failure_count generator ->
  Forall (fun stl_path => is_Some (fs w1 !! destination env output_dir stl_path))
    stl_files /\
  fs (process_files env g2 output_dir stl_files w1).2 = fs w1 /\
  exists t,
    trace (process_files env g2 output_dir stl_files w1).2 = trace w1 ++ t /\
    invoked t = [] /\ loads t = [].
Proof.
  intros Hrun Hcount.
  assert (Hall : Forall (fun stl_path =>
                   is_Some (fs w1 !! destination env output_dir stl_path)) stl_files).
  { revert generator w Hrun Hcount.
    induction stl_files as [| stl_path rest IH]; intros generator w Hrun Hcount;
      [constructor |].
    rewrite process_files_cons in Hrun.
    destruct (generate_preview env generator stl_path
                (destination env output_dir stl_path) w) as [[ga | e] wa] eqn:Hone;
      [| discriminate].
    pose proof (call_keeps env PbarUpdate wa eq_refl) as Hc.
    destruct (call env PbarUpdate wa) as [[[] | e] wb]; [| discriminate].
    simpl in Hc.
    pose proof (counters_over_a_run env _ _ _ _ _ _ Hrun) as (_ & Hf & _ & _).
    assert (Hfa : failure_count ga = failure_count generator).
    { destruct (generate_preview_counts env _ _ _ _ _ _ Hone) as [-> | [-> | ->]];
        simpl in *; lia. }
    constructor.
    - pose proof (counted_file_has_preview _ _ _ _ _ _ Hone Hfa) as Hex.
      pose proof (process_files_keeps env ga output_dir rest wb
                    (destination env output_dir stl_path)) as Hk.
      rewrite Hrun in Hk. simpl in Hk. rewrite Hk by (rewrite Hc; exact Hex).
      rewrite Hc. exact Hex.
    - eapply IH; [exact Hrun | lia]. }
  split; [exact Hall |].
  destruct (present_previews_are_skipped g2 output_dir stl_files w1 Hall)
    as (Hfs & Ht & _).
  split; assumption.
Qed.

(** X13. The two graphical strategies read the generator only through the
    width of the image size, from which they derive the resolution: the
    height and the counters change nothing in what they do. *)
Theorem graphical_strategies_ignore_height self other stl_path output_path w :
  (image_size self).1 = (image_size other).1 ->
  generate_preview_matplotlib env self stl_path output_path w =
  generate_preview_matplotlib env other stl_path output_path w /\
  generate_preview_wireframe env self stl_path output_path w =
  generate_preview_wireframe env other stl_path output_path w.
Proof.
  intros Hwidth.
  unfold generate_preview_matplotlib, matplotlib_steps,
    generate_preview_wireframe, wireframe_steps.
  rewrite Hwidth. split; reflexivity.
Qed.

End Reruns.


(** ** Which meshes render *)

Lemma np_index_Some_range {A} (a : list A) (i : Z) (x : A) :
  np_index a i = Some x -> index_in_range (length a) i.
Proof.
  unfold np_index, index_in_range.
  destruct (0 <=? i) eqn:H0, (i <? Z.of_nat (length a)) eqn:H1,
    (- Z.of_nat (length a) <=? i) eqn:H2, (i <? 0) eqn:H3; simpl;
    try discriminate; intros _; lia.
Qed.

Lemma np_index_range_Some {A} (a : list A) (i : Z) :
  index_in_range (length a) i -> exists x, np_index a i = Some x.
Proof.
  unfold np_index, index_in_range. intros Hi.
  destruct (0 <=? i) eqn:H0.
  - replace (i <? Z.of_nat (length a)) with true by (symmetry; apply Z.ltb_lt; lia).
    simpl. destruct (nth_error a (Z.to_nat i)) eqn:Hn; [eauto |].
    apply nth_error_None in Hn. lia.
  - simpl.
    replace (- Z.of_nat (length a) <=? i) with true by (symmetry; apply Z.leb_le; lia).
    replace (i <? 0) with true by (symmetry; apply Z.ltb_lt; lia).
    simpl. destruct (nth_error a (Z.to_nat (Z.of_nat (length a) + i))) eqn:Hn; [eauto |].
    apply nth_error_None in Hn. lia.
Qed.

Lemma np_take_Some_range {A} (a : list A) (f : face) (tri : list A) :
  np_take a f = Some tri -> face_in_range (length a) f.
Proof.
  destruct f as [[i j] k]. unfold np_take, face_in_range.
  destruct (np_index a i) eqn:Hi, (np_index a j) eqn:Hj, (np_index a k) eqn:Hk;
    try discriminate.
  intros _. repeat split; eapply np_index_Some_range; eassumption.
Qed.

Lemma np_take_range_Some {A} (a : list A) (f : face) :
  face_in_range (length a) f -> exists p q r, np_take a f = Some [p; q; r].
Proof.
  destruct f as [[i j] k]. unfold np_take, face_in_range. intros (Hi & Hj & Hk).
  destruct (np_index_range_Some a i Hi) as [p ->].
  destruct (np_index_range_Some a j Hj) as [q ->].
  destruct (np_index_range_Some a k Hk) as [r ->]. eauto.
Qed.

Lemma np_dot_T_length (vertices : list vertex) (m : vertex * vertex) :
  length (np_dot_T vertices m) = length vertices.
Proof. apply length_map. Qed.

Lemma np_stride_from_Forall {A} (P : A -> Prop) (step skip : nat) (a : list A) :
  Forall P a -> Forall P (np_stride_from step skip a).
Proof.
  intros Ha. revert skip. induction Ha as [| x rest Hx _ IH]; intros skip; simpl.
  - constructor.
  - destruct skip; [constructor; [exact Hx |] |]; apply IH.
Qed.

Lemma bind_returns {A B} (m : M A) (k : A -> M B) (w : World) (a : A) (w1 : World) (b : B) :
  m w = (Ret a, w1) ->
  (exists w', k a w1 = (Ret b, w')) ->
  exists w', bind m k w = (Ret b, w').
Proof. intros Hm Hk. unfold bind. rewrite Hm. exact Hk. Qed.

Lemma outlined_faces_in_range (vs : list vertex) (faces : list face)
    (ols : list (list float * list float)) :
  Forall2 (fun f o => closed_outline (np_dot_T vs proj_matrix) f = Some o) faces ols ->
  Forall (face_in_range (length vs)) faces.
Proof.
  induction 1 as [| f o fs os Hf _ IH]; constructor; [| exact IH].
  unfold closed_outline in Hf.
  destruct (np_take _ f) as [tri |] eqn:Htake; [| discriminate].
  apply np_take_Some_range in Htake. rewrite np_dot_T_length in Htake. exact Htake.
Qed.

Section Renderable.

Variable env : Collaborators.

(** X14. A strategy returns True only on a mesh it can use: the surface
    render only when the vertex array is not empty and the faces are there,
    the wireframe render only when vertices and faces are there and every
    face index is in range, the bounding-box render only when the bounds are
    there and are not [None]. *)
Theorem rendered_mesh_is_renderable s self stl_path output_path w w' :
  render env s self stl_path output_path w = (Ret true, w') ->
  renderable s
    (loaded env stl_path (emit (Log (Attempting s (basename env stl_path))) w)).
Proof.
  intros Hr. apply render_true_inv in Hr.
  destruct s; simpl in Hr;
    unfold matplotlib_steps, wireframe_steps, simple_steps in Hr;
    run_inv_pairs; subst; simpl.
  - match goal with
    | H : mesh_vertices _ = Some ?vs |- _ => destruct vs as [| v vs]
    end; [discriminate | eauto 10].
  - match goal with
    | H1 : mesh_faces _ = Some ?a, H2 : mesh_faces _ = Some ?b |- _ =>
        rewrite H1 in H2; injection H2 as <-
    end.
    eexists _, _. split; [eassumption |]. split; [eassumption |].
    eapply outlined_faces_in_range; eassumption.
  - eauto.
Qed.

(** No library call raises. *)
Hypothesis healthy_libraries : forall c w, fault env c w = None.

Lemma call_ok (c : ext_call) (w : World) :
  call env c w = (Ret tt, mkWorld (written c (fs w)) (trace w ++ [Call c])).
Proof. unfold call. rewrite healthy_libraries. reflexivity. Qed.

Lemma call_returns (c : ext_call) (w : World) :
  exists w', call env c w = (Ret tt, w').
Proof. rewrite call_ok. eauto. Qed.

Lemma load_mesh_returns (stl_path : string) (w : World) :
  exists w', load_mesh env stl_path w = (Ret (loaded env stl_path w), w').
Proof. unfold load_mesh. rewrite call_ok. eauto. Qed.

Lemma call_each_ok (cs : list ext_call) (w : World) :
  exists w', for_each cs (call env) w = (Ret tt, w').
Proof.
  revert w. induction cs as [| c rest IH]; intros w; simpl; [eexists; reflexivity |].
  eapply bind_returns; [apply call_ok | apply IH].
Qed.

Lemma call_groups_ok {A} (g : A -> list ext_call) (xs : list A) (w : World) :
  exists w', for_each xs (fun x => for_each (g x) (call env)) w = (Ret tt, w').
Proof.
  revert w. induction xs as [| x rest IH]; intros w; simpl; [eexists; reflexivity |].
  destruct (call_each_ok (g x) w) as [w1 H1].
  eapply bind_returns; [exact H1 | apply IH].
Qed.

Lemma plot_loop_ok (pts : list (float * float)) (faces : list face) (w : World) :
  Forall (face_in_range (length pts)) faces ->
  exists w', for_each faces (plot_edges env pts) w = (Ret tt, w').
Proof.
  intros Hall. revert w. induction Hall as [| f rest Hf _ IH]; intros w; simpl;
    [eexists; reflexivity |].
  destruct (np_take_range_Some pts f Hf) as (p & q & r & Htake).
  eapply bind_returns; [| apply IH].
  unfold plot_edges, bind. rewrite Htake. simpl. apply call_ok.
Qed.

Lemma fill_loop_ok (pts : list (float * float)) (faces : list face) (w : World) :
  Forall (face_in_range (length pts)) faces ->
  exists w', for_each faces (fill_face env pts) w = (Ret tt, w').
Proof.
  intros Hall. revert w. induction Hall as [| f rest Hf _ IH]; intros w; simpl;
    [eexists; reflexivity |].
  destruct (np_take_range_Some pts f Hf) as (p & q & r & Htake).
  eapply bind_returns; [| apply IH].
  unfold fill_face, bind. rewrite Htake. simpl. apply call_ok.
Qed.

(** Runs one statement of a chain of binds that is known to return; the
    world a call leaves is kept abstract. *)
Ltac run_step :=
  lazymatch goal with
  | |- exists w', bind (for_each ?xs (plot_edges _ ?pts)) _ ?W = _ =>
      let H := fresh "Hloop" in
      destruct (plot_loop_ok pts xs W) as [? H];
        [| eapply bind_returns; [exact H | clear H; cbv beta]]
  | |- exists w', bind (for_each ?xs (fill_face _ ?pts)) _ ?W = _ =>
      let H := fresh "Hloop" in
      destruct (fill_loop_ok pts xs W) as [? H];
        [| eapply bind_returns; [exact H | clear H; cbv beta]]
  | |- exists w', bind (for_each ?xs (fun x => for_each (@?g x) _)) _ ?W = _ =>
      let H := fresh "Hloop" in
      destruct (call_groups_ok g xs W) as [? H];
        eapply bind_returns; [exact H | clear H; cbv beta]
  | |- exists w', bind (call _ ?c) _ ?W = _ =>
      let H := fresh "Hcall" in
      destruct (call_returns c W) as [? H];
        eapply bind_returns; [exact H | clear H; cbv beta]
  | |- exists w', bind (load_mesh _ ?p) _ ?W = _ =>
      let H := fresh "Hload" in
      destruct (load_mesh_returns p W) as [? H];
        eapply bind_returns; [exact H | clear H; cbv beta]
  | |- exists w', bind _ _ _ = _ =>
      eapply bind_returns;
        [ first [ reflexivity
                | match goal with
                  | H : _ = Some _ |- _ => rewrite H; reflexivity
                  end ]
        | cbv beta zeta ]
  | |- exists w', ret _ _ = _ => eexists; reflexivity
  end.

(** X15. With libraries that raise nothing, a mesh a strategy can use is
    rendered: the strategy returns True. *)
Theorem renderable_mesh_is_rendered s self stl_path output_path w :
  renderable s
    (loaded env stl_path (emit (Log (Attempting s (basename env stl_path))) w)) ->
  exists w', render env s self stl_path output_path w = (Ret true, w').
Proof.
  intros Hmesh.
  assert (Hsteps : exists w', steps env s self stl_path output_path w = (Ret true, w')).
  { destruct s; simpl in *.
    - destruct Hmesh as (v & vs & faces & Hv & Hf).
      unfold matplotlib_steps. repeat run_step.
    - destruct Hmesh as (vs & faces & Hv & Hf & Hrange).
      unfold wireframe_steps. repeat run_step.
      + rewrite np_dot_T_length. exact Hrange.
      + rewrite np_dot_T_length. apply np_stride_from_Forall, Hrange.
    - destruct Hmesh as ([[[x0 y0] z0] [[x1 y1] z1]] & Hb).
      unfold simple_steps. repeat first [run_step | progress cbv beta iota zeta]. }
  destruct Hsteps as [w' Hsteps]. exists w'.
  pose proof (render_by_cases env s self stl_path output_path w) as Hc.
  rewrite Hsteps in Hc. apply Hc.
Qed.

End Renderable.


(** ** Mesh loads *)

Lemma loads_app (t1 t2 : list event) : loads (t1 ++ t2) = loads t1 ++ loads t2.
Proof. unfold loads. rewrite calls_app. apply omap_app. Qed.

Section Loads.

Variable env : Collaborators.

Lemma loadless_ret {A} (a : A) : loadless (ret a).
Proof. intros w. exists []. rewrite app_nil_r. auto. Qed.

Lemma loadless_raise {A} (e : pyexc) : loadless (@raise A e).
Proof. intros w. exists []. rewrite app_nil_r. auto. Qed.

Lemma loadless_bind {A B} (m : M A) (k : A -> M B) :
  loadless m -> (forall a, loadless (k a)) -> loadless (bind m k).
Proof.
  intros Hm Hk w. unfold bind. destruct (Hm w) as (t1 & Ht1 & Hl1).
  destruct (m w) as [[a | e] w1]; simpl in *; [| eauto].
  destruct (Hk a w1) as (t2 & Ht2 & Hl2). exists (t1 ++ t2).
  rewrite Ht2, Ht1, <- app_assoc, loads_app, Hl1, Hl2. auto.
Qed.

Lemma loadless_call (c : ext_call) : not_a_load c -> loadless (call env c).
Proof.
  intros Hc w. exists [Call c]. unfold call.
  destruct (fault env c w); simpl; (split; [reflexivity |]);
    destruct c; simpl in *; tauto.
Qed.

Lemma loadless_getattr {A} (name : string) (field : option A) :
  loadless (getattr name field).
Proof. destruct field; simpl; [apply loadless_ret | apply loadless_raise]. Qed.

Lemma loadless_or_raise {A} (cls : string) (o : option A) : loadless (or_raise cls o).
Proof. destruct o; simpl; [apply loadless_ret | apply loadless_raise]. Qed.

Lemma loadless_for_each {A} (xs : list A) (body : A -> M unit) :
  (forall x, loadless (body x)) -> loadless (for_each xs body).
Proof.
  intros Hbody. induction xs as [| x rest IH]; simpl.
  - apply loadless_ret.
  - apply loadless_bind; [apply Hbody | intros _; exact IH].
Qed.

Lemma loadless_gradient (size : Z * Z) (margin offset : Z) :
  loadless (for_each (gradient_segments size margin offset) (call env)).
Proof.
  unfold gradient_segments. simpl.
  repeat (apply loadless_bind; [apply loadless_call; exact I | intros _]).
  apply loadless_ret.
Qed.

(** A strategy prints its line, loads the mesh, and loads nothing after. *)
Lemma loads_once {A} (m : message) (stl_path : string) (k : Mesh -> M A) (w : World) :
  (forall mesh, loadless (k mesh)) ->
  exists t,
    trace ((log_info m ;;; mesh <- load_mesh env stl_path ;; k mesh) w).2
      = trace w ++ t /\
    loads t = [stl_path].
Proof.
  intros Hk. unfold bind, log_info, load_mesh, call.
  destruct (fault env (LoadMesh stl_path) (emit (Log m) w)) as [e |]; simpl.
  - exists [Log m; Call (LoadMesh stl_path)]. rewrite <- app_assoc. auto.
  - match goal with
    | |- context [k ?mesh ?w1] => destruct (Hk mesh w1) as (t & Ht & Hl)
    end.
    exists ([Log m; Call (LoadMesh stl_path)] ++ t). split.
    + rewrite Ht. simpl. rewrite <- !app_assoc. reflexivity.
    + rewrite loads_app, Hl. reflexivity.
Qed.

Lemma steps_load_once s self stl_path output_path w :
  exists t,
    trace (steps env s self stl_path output_path w).2 = trace w ++ t /\
    loads t = [stl_path].
Proof.
  destruct s; simpl; apply loads_once; intros mesh;
    unfold plot_edges, fill_face;
    repeat first
      [ apply loadless_bind; [| intros ?]
      | apply loadless_ret
      | apply loadless_call; exact I
      | apply loadless_getattr
      | apply loadless_or_raise
      | apply loadless_gradient
      | apply loadless_for_each; intros ?
      | progress cbv zeta
      | match goal with |- loadless (let '(_, _) := ?b in _) => destruct b end ].
Qed.

Lemma render_loads_once s self stl_path output_path w :
  exists t,
    trace (render env s self stl_path output_path w).2 = trace w ++ t /\
    loads t = [stl_path].
Proof.
  destruct (steps_load_once s self stl_path output_path w) as (t & Ht & Hl).
  pose proof (render_by_cases env s self stl_path output_path w) as Hc.
  destruct (steps env s self stl_path output_path w) as [[b | e] w1]; simpl in *.
  - destruct Hc as [_ ->]. eauto.
  - destruct (isinstance_Exception e); rewrite Hc; simpl; [| eauto].
    exists (t ++ [Log (RenderingFailed s e)]).
    rewrite Ht, <- app_assoc, loads_app, Hl. auto.
Qed.

(** X16. Every strategy loads the mesh for itself: over one call of
    [generate_preview] the mesh loads are as many as the strategies entered,
    each of the input file, so a file whose first two renders fail is parsed
    three times and a skipped file not at all. *)
Theorem every_strategy_loads_the_mesh self stl_path output_path w :
  exists t,
    trace (generate_preview env self stl_path output_path w).2 = trace w ++ t /\
    loads t = map (fun _ => stl_path) (invoked t).
Proof.
  destruct (fs w !! output_path) as [x |] eqn:Hdest.
  - rewrite generate_preview_skip by (rewrite Hdest; eauto).
    exists [Log (AlreadyExists (basename env stl_path))]. auto.
  - destruct (generate_preview_matplotlib env self stl_path output_path w)
      as [r1 w1] eqn:H1.
    destruct (generate_preview_wireframe env self stl_path output_path w1)
      as [r2 w2] eqn:H2.
    destruct (generate_preview_simple env self stl_path output_path w2)
      as [r3 w3] eqn:H3.
    rewrite (generate_preview_cascade _ _ _ _ _ _ _ _ _ _ _ Hdest H1 H2 H3).
    destruct (render_loads_once Surface self stl_path output_path w) as (t1 & T1 & L1).
    destruct (render_loads_once Wireframe self stl_path output_path w1) as (t2 & T2 & L2).
    destruct (render_loads_once BoundingBox self stl_path output_path w2) as (t3 & T3 & L3).
    destruct (matplotlib_attempt env self stl_path output_path w) as (u1 & (U1 & _) & A1).
    destruct (wireframe_attempt env self stl_path output_path w1) as (u2 & (U2 & _) & A2).
    destruct (simple_attempt env self stl_path output_path w2) as (u3 & (U3 & _) & A3).
    simpl in T1, T2, T3. rewrite H1 in *. rewrite H2 in *. rewrite H3 in *.
    simpl in *.
    rewrite T1 in U1. apply app_inv_head in U1 as <-.
    rewrite T2 in U2. apply app_inv_head in U2 as <-.
    rewrite T3 in U3. apply app_inv_head in U3 as <-.
    assert (I1 : invoked t1 = [Surface]) by (unfold invoked; inversion A1; reflexivity).
    assert (I2 : invoked t2 = [Wireframe]) by (unfold invoked; inversion A2; reflexivity).
    assert (I3 : invoked t3 = [BoundingBox]) by (unfold invoked; inversion A3; reflexivity).
    destruct r1 as [[|] | e1]; [| destruct r2 as [[|] | e2];
      [| destruct r3 as [[|] | e3] |] |]; simpl;
      eexists; (split; [rewrite ?T3, ?T2, ?T1, <- ?app_assoc; reflexivity |]);
      rewrite ?loads_app, ?invoked_app, ?L1, ?L2, ?L3, ?I1, ?I2, ?I3; reflexivity.
Qed.

End Loads.

(** * Concrete runs *)

Module Scenario.

Import Demo.

(** A triangle in the plane z = 0 is projected onto itself; a vertex above
    the plane moves up and to the right by half its height. *)
Example flat_triangle_unchanged :
  np_dot_T [(0, 0, 0); (1, 0, 0); (0, 1, 0); (1, 2, 3)]%float proj_matrix =
  [(0, 0); (1, 0); (0, 1); (2.5, 3.5)]%float.
Proof. vm_compute. reflexivity. Qed.

(** The outline of the triangle mesh, whose vertices are all finite. *)
Example triangle_outline :
  outlines (trace (generate_preview_wireframe healthy generator stl png empty_world).2)
    = [([0; 1; 0; 0], [0; 0; 1; 0])%float] /\
  forallb finite_vertex [(0, 0, 0); (1, 0, 0); (0, 1, 0)]%float = true.
Proof. vm_compute. split; reflexivity. Qed.

(** Three files, one failure-free run: one preview, two skips, status 0. *)
Example healthy_run :
  let '(r, w) := main healthy "in" "out" (512, 512) empty_world in
  exit_status r = 0 /\
  logs (trace w) =
    [Scanning "in"; FoundFiles 3;
     Attempting Surface "part.stl"; GeneratedOk Surface;
     AlreadyExists "part.STL"; AlreadyExists "part.stl";
     SummaryHeader; SummaryTotal 3; SummarySuccess 1; SummaryFailed 0;
     SummarySkipped 2; SummaryTime] /\
  fs w = {[ png := PngFigure 64 ]}.
Proof. vm_compute. repeat split. Qed.

(** An interrupt during a mesh load ends the whole run. *)
Example interrupted_run :
  let '(r, w) := main interrupted "in" "out" (512, 512) empty_world in
  r = Raise KeyboardInterrupt /\
  logs (trace w) = [Scanning "in"; FoundFiles 3; Attempting Surface "part.stl"].
Proof. vm_compute. repeat split. Qed.

(** With the 3D surface primitive unavailable the cascade enters the surface
    render, then the wireframe render, and stops there. *)
Lemma strategies_tried_in_order_witness :
  exists t,
    trace (generate_preview no_surface generator stl png empty_world).2
      = trace empty_world ++ t /\
    NoDup (invoked t) /\ invoked t = [Surface; Wireframe].
Proof.
  exact (strategies_tried_in_order no_surface generator stl png empty_world
           _ _ _ _ _ _ eq_refl
           (surjective_pairing _) (surjective_pairing _) (surjective_pairing _)).
Defined.

(** A file whose preview is already on disk. *)
Lemma existing_destination_is_skipped_witness :
  exists self' w' t,
    generate_preview healthy generator stl png rendered_world = (Ret self', w') /\
    skipped_count self' = skipped_count generator + 1 /\
    success_count self' = success_count generator /\
    failure_count self' = failure_count generator /\
    fs w' = fs rendered_world /\
    trace w' = trace rendered_world ++ t /\
    t = [Log (AlreadyExists (basename healthy stl))] /\
    invoked t = [] /\ loads t = [] /\ calls t = [].
Proof.
  apply (existing_destination_is_skipped healthy generator stl png rendered_world).
  vm_compute. eauto.
Defined.

(** Three unparseable files: three failures, exit status 1. *)
Lemma exit_status_reflects_failures_witness :
  exit_status (main unparseable "in" "out" (512, 512) empty_world).1 = 1.
Proof.
  edestruct (exit_status_reflects_failures unparseable "in" "out" (512, 512)
               empty_world) as [_ Hfound].
  - vm_compute. reflexivity.
  - intros _. vm_compute. reflexivity.
  - destruct Hfound as [Hone _]; [discriminate |].
    apply Hone. vm_compute. reflexivity.
Defined.


(** The file rendered by the wireframe fallback is counted once, as a success. *)
Lemma one_counter_per_file_witness :
  success_count generator <= success_count (incr_success generator) /\
  failure_count generator <= failure_count (incr_success generator) /\
  skipped_count generator <= skipped_count (incr_success generator).
Proof.
  refine (proj1 (proj2
    (one_counter_per_file no_surface generator stl png empty_world
       (incr_success generator) _ _ _ _ _ _ _ _
       (surjective_pairing _) (surjective_pairing _) (surjective_pairing _)))).
  vm_compute. reflexivity.
Defined.

(** The card drawn on a 512 x 512 canvas. *)
Lemma gradient_at_both_top_corners_witness :
  exists t,
    trace (generate_preview_simple healthy generator stl png empty_world).2
      = trace empty_world ++ t /\
    In (DrawRectangle [50; 50; 462; 462]) (calls t) /\
    segments t = corner_gradient (50, 50) (462, 50) /\
    segment_starts t = gradient_starts (512, 512) 50 /\
    Forall
      (fun '(x, y) => 21 <= y <= 50 /\ (x - 50 = 50 - y \/ x - 462 = 50 - y))
      (segment_starts t) /\
    Forall
      (fun seg : list Z * (Z * Z * Z * Z) =>
         exists x y alpha,
           seg = ([x; y; x + 1; y], (70, 130, 180, alpha)) /\
           8 <= alpha <= 255 /\ 21 <= y <= 50 /\
           (x - 50 = 50 - y \/ x - 462 = 50 - y) /\
           (100 < 512 -> y < 462))
      (segments t).
Proof.
  apply (gradient_at_both_top_corners healthy generator stl png empty_world).
  vm_compute. reflexivity.
Defined.

(** An interrupt during the first mesh load leaves the strategy, the
    pipeline and the loop; the second file is never looked at. *)
Lemma base_exceptions_propagate_witness :
  render interrupted Surface generator stl (destination interrupted "out" stl) empty_world
    = (Raise KeyboardInterrupt,
       mkWorld ∅ [Log (Attempting Surface "part.stl"); Call (LoadMesh stl)]) /\
  generate_preview interrupted generator stl (destination interrupted "out" stl) empty_world
    = (Raise KeyboardInterrupt,
       mkWorld ∅ [Log (Attempting Surface "part.stl"); Call (LoadMesh stl)]) /\
  process_files interrupted generator "out" [stl; "in/b/part.STL"] empty_world
    = (Raise KeyboardInterrupt,
       mkWorld ∅ [Log (Attempting Surface "part.stl"); Call (LoadMesh stl)]).
Proof.
  apply (base_exceptions_propagate interrupted generator stl "out" ["in/b/part.STL"]
           empty_world Surface empty_world KeyboardInterrupt).
  - split; [vm_compute |]; reflexivity.
  - vm_compute. reflexivity.
  - reflexivity.
Defined.

(** [in/a/part.stl] is rendered; [in/b/part.stl], two files later, is skipped. *)
Lemma same_basename_same_destination_witness :
  destination healthy "out" "in/b/part.stl" = destination healthy "out" stl /\
  fs (process_files healthy generator "out" [stl; "in/b/part.STL"] empty_world).2
    !! destination healthy "out" stl
  = fs (generate_preview healthy generator stl png empty_world).2
      !! destination healthy "out" stl /\
  generate_preview healthy (incr_skipped (incr_success generator)) "in/b/part.stl"
    (destination healthy "out" "in/b/part.stl")
    (process_files healthy generator "out" [stl; "in/b/part.STL"] empty_world).2
  = (Ret (incr_skipped (incr_skipped (incr_success generator))),
     emit (Log (AlreadyExists (basename healthy "in/b/part.stl")))
       (process_files healthy generator "out" [stl; "in/b/part.STL"] empty_world).2).
Proof.
  apply (same_basename_same_destination healthy "out" stl "in/b/part.stl"
           ["in/b/part.STL"] generator empty_world (incr_success generator)).
  all: vm_compute; first [reflexivity | eexists; reflexivity].
Defined.


(** C3, the claim as stated fails: a run in which no file has failed can end
    with a status other than 0.  When the output directory cannot be created
    the run ends with status 1 before any file is looked at; an interrupt
    during the first mesh load ends it with status 130; and when the
    progress bar cannot be closed, the loop has processed the three files
    with the failure counter at zero, and the run ends with status 1. *)
Lemma failure_free_runs_exit_nonzero :
  exit_status (main read_only "in" "out" (512, 512) empty_world).1 = 1 /\
  exit_status (main interrupted "in" "out" (512, 512) empty_world).1 = 130 /\
  let start :=
    mkWorld ∅ [Call SwitchBackendAgg; Call (Makedirs "out"); Log (Scanning "in");
               Call (OsWalk "in"); Log (FoundFiles 3); Call (TqdmEnter 3)] in
  exists generator w2,
    process_files bar_breaks (init (512, 512)) "out"
      ["in/a/part.stl"; "in/b/part.STL"; "in/b/part.stl"] start = (Ret generator, w2) /\
    failure_count generator = 0 /\
    main bar_breaks "in" "out" (512, 512) empty_world =
      (Raise (Exception_ "OSError" "Broken pipe"), emit (Call TqdmExit) w2) /\
    exit_status (main bar_breaks "in" "out" (512, 512) empty_world).1 = 1.
Proof.
  split; [vm_compute; reflexivity |]. split; [vm_compute; reflexivity |].
  eexists _, _. split; [vm_compute; reflexivity |]. vm_compute. repeat split.
Qed.


(** C6, the claim as stated fails: an interrupt during the mesh load is not
    turned into False, it leaves the strategy. *)
Lemma interrupt_escapes_strategy :
  (generate_preview_matplotlib interrupted generator stl png empty_world).1
    = Raise KeyboardInterrupt /\
  (generate_preview_wireframe interrupted generator stl png empty_world).1
    = Raise KeyboardInterrupt /\
  (generate_preview_simple interrupted generator stl png empty_world).1
    = Raise KeyboardInterrupt.
Proof. vm_compute. repeat split. Qed.

(** C8, the claim as stated fails: on a 512 x 512 canvas the rectangle is
    (50, 50, 462, 462) and a gradient segment starts at its top-right corner
    (462, 50). *)
Lemma gradient_reaches_top_right_corner :
  In (DrawRectangle [50; 50; 462; 462])
     (calls (trace (generate_preview_simple healthy generator stl png empty_world).2)) /\
  In (462, 50)
     (segment_starts
        (trace (generate_preview_simple healthy generator stl png empty_world).2)).
Proof.
  split.
  - vm_compute. do 3 right. left. reflexivity.
  - vm_compute. right. left. reflexivity.
Qed.


(** The scan of the sample tree. *)
Lemma find_stl_files_finds_witness :
  trace (find_stl_files healthy "in" empty_world).2
    = trace empty_world ++ [Log (Scanning "in"); Call (OsWalk "in")] /\
  fs (find_stl_files healthy "in" empty_world).2 = fs empty_world /\
  forall p,
    In p ["in/a/part.stl"; "in/b/part.STL"; "in/b/part.stl"] <->
    exists root files file,
      In (root, files) (walked healthy "in" (find_stl_files healthy "in" empty_world).2) /\
      In file files /\
      str_endswith (str_lower file) ".stl" = true /\
      p = join healthy root file.
Proof.
  apply (find_stl_files_finds healthy "in" empty_world).
  vm_compute. reflexivity.
Defined.

(** What leaves the pipeline on an interrupt is no [Exception]. *)
Lemma generate_preview_raises_no_Exception_witness :
  isinstance_Exception KeyboardInterrupt = false.
Proof.
  eapply (generate_preview_raises_no_Exception interrupted generator stl png empty_world).
  vm_compute. reflexivity.
Defined.

(** The three unparseable files are counted: three failures. *)
Lemma every_file_is_counted_once_witness :
  success_count generator <= 0 /\
  failure_count generator <= 3 /\
  skipped_count generator <= 0 /\
  0 + 3 + 0 =
  success_count generator + failure_count generator + skipped_count generator
  + Z.of_nat (length ["in/a/part.stl"; "in/b/part.STL"; "in/b/part.stl"]).
Proof.
  eapply (every_file_is_counted_once unparseable generator "out"
            ["in/a/part.stl"; "in/b/part.STL"; "in/b/part.stl"] empty_world
            (mkGenerator (512, 512) 0 3 0)).
  vm_compute. reflexivity.
Defined.

(** The preview of the rendered file is on disk. *)
Lemma counted_success_has_a_preview_witness :
  is_Some (fs (generate_preview healthy generator stl png empty_world).2 !! png).
Proof.
  eapply (counted_success_has_a_preview healthy generator stl png empty_world
            (incr_success generator)).
  - vm_compute. reflexivity.
  - reflexivity.
Defined.

Lemma unparseable_faults_are_ordinary (c : ext_call) (w : World) (e : pyexc) :
  fault unparseable c w = Some e -> isinstance_Exception e = true.
Proof. destruct c; simpl; intros [=]; subst; reflexivity. Qed.

(** With files that cannot be parsed the loop still runs to its end. *)
Lemma process_files_runs_to_its_end_witness :
  exists generator' w',
    process_files unparseable generator "out" [stl; "in/b/part.STL"] empty_world
      = (Ret generator', w') /\
    success_count generator' + failure_count generator' + skipped_count generator' =
    success_count generator + failure_count generator + skipped_count generator
    + Z.of_nat (length [stl; "in/b/part.STL"]).
Proof.
  apply (process_files_runs_to_its_end unparseable unparseable_faults_are_ordinary).
  reflexivity.
Defined.

(** A rerun over an output directory that holds the preview. *)
Lemma rerun_skips_every_file_witness :
  fs (process_files healthy generator "out" [stl; "in/b/part.stl"] rendered_world).2
    = fs rendered_world /\
  (exists t,
     trace (process_files healthy generator "out" [stl; "in/b/part.stl"] rendered_world).2
       = trace rendered_world ++ t /\
     invoked t = [] /\ loads t = []) /\
  (forall generator',
     (process_files healthy generator "out" [stl; "in/b/part.stl"] rendered_world).1
       = Ret generator' ->
     skipped_count generator'
       = skipped_count generator + Z.of_nat (length [stl; "in/b/part.stl"]) /\
     success_count generator' = success_count generator /\
     failure_count generator' = failure_count generator).
Proof.
  apply (rerun_skips_every_file healthy generator "out" [stl; "in/b/part.stl"]
           rendered_world).
  repeat constructor; vm_compute; eauto.
Defined.

(** A tree with no mesh file: five events and a normal return. *)
Lemma main_without_files_witness :
  exists w',
    main deserted "in" "out" (512, 512) empty_world = (Ret tt, w') /\
    trace w' =
      trace empty_world ++ [Call SwitchBackendAgg; Call (Makedirs "out");
                            Log (Scanning "in"); Call (OsWalk "in");
                            Log NoFilesFound] /\
    fs w' = fs empty_world.
Proof.
  eapply (main_without_files deserted "in" "out" (512, 512) empty_world).
  vm_compute. reflexivity.
Defined.

(** An output directory that cannot be created. *)
Lemma main_raises_what_makedirs_raises_witness :
  main read_only "in" "out" (512, 512) empty_world =
  (Raise (Exception_ "PermissionError" "Permission denied"),
   emit (Call (Makedirs "out")) (emit (Call SwitchBackendAgg) empty_world)).
Proof.
  apply (main_raises_what_makedirs_raises read_only "in" "out" (512, 512) empty_world);
    reflexivity.
Defined.

(** An interrupt in the loop: the bar is closed and no summary is printed. *)
Lemma main_stops_with_the_loop_witness :
  logs (trace (main interrupted "in" "out" (512, 512) empty_world).2)
    = [Scanning "in"; FoundFiles 3; Attempting Surface "part.stl"] /\
  last (trace (main interrupted "in" "out" (512, 512) empty_world).2)
    = Some (Call TqdmExit) /\
  (main interrupted "in" "out" (512, 512) empty_world).1 = Raise KeyboardInterrupt.
Proof.
  pose (w1 := ((call interrupted SwitchBackendAgg ;;;
                call interrupted (Makedirs "out") ;;;
                find_stl_files interrupted "in") empty_world).2).
  pose (w2 := (process_files interrupted (init (512, 512)) "out"
                 [stl; "in/b/part.STL"; "in/b/part.stl"]
                 (emit (Call (TqdmEnter 3)) (emit (Log (FoundFiles 3)) w1))).2).
  rewrite (main_stops_with_the_loop interrupted "in" "out" (512, 512) empty_world
             stl ["in/b/part.STL"; "in/b/part.stl"] w1 KeyboardInterrupt w2).
  - vm_compute. repeat split.
  - vm_compute. reflexivity.
  - reflexivity.
  - vm_compute. reflexivity.
Defined.

(** A square and a tall canvas of the same width. *)
Lemma graphical_strategies_ignore_height_witness :
  generate_preview_matplotlib healthy (init (512, 512)) stl png empty_world =
  generate_preview_matplotlib healthy (init (512, 2048)) stl png empty_world /\
  generate_preview_wireframe healthy (init (512, 512)) stl png empty_world =
  generate_preview_wireframe healthy (init (512, 2048)) stl png empty_world.
Proof.
  apply (graphical_strategies_ignore_height healthy (init (512, 512)) (init (512, 2048))).
  reflexivity.
Defined.

(** The triangle mesh, rendered as a wireframe, has its indices in range. *)
Lemma rendered_mesh_is_renderable_witness :
  renderable Wireframe triangle_mesh.
Proof.
  eapply (rendered_mesh_is_renderable healthy Wireframe generator stl png empty_world).
  vm_compute. reflexivity.
Defined.

(** The triangle mesh has bounds: the card is drawn. *)
Lemma renderable_mesh_is_rendered_witness :
  exists w', render healthy BoundingBox generator stl png empty_world = (Ret true, w').
Proof.
  apply (renderable_mesh_is_rendered healthy (fun _ _ => eq_refl) BoundingBox).
  simpl. eauto.
Defined.

(** A first clean run, then a second one over its result. *)
Lemma clean_run_is_idempotent_witness :
  Forall
    (fun stl_path =>
       is_Some (fs (process_files healthy generator "out" [stl; "in/b/part.stl"]
                      empty_world).2
                !! destination healthy "out" stl_path))
    [stl; "in/b/part.stl"] /\
  fs (process_files healthy generator "out" [stl; "in/b/part.stl"]
        (process_files healthy generator "out" [stl; "in/b/part.stl"] empty_world).2).2
  = fs (process_files healthy generator "out" [stl; "in/b/part.stl"] empty_world).2 /\
  exists t,
    trace (process_files healthy generator "out" [stl; "in/b/part.stl"]
             (process_files healthy generator "out" [stl; "in/b/part.stl"]
                empty_world).2).2
    = trace (process_files healthy generator "out" [stl; "in/b/part.stl"]
               empty_world).2 ++ t /\
    invoked t = [] /\ loads t = [].
Proof.
  eapply (clean_run_is_idempotent healthy generator "out" [stl; "in/b/part.stl"]
            empty_world (incr_skipped (incr_success generator))).
  - vm_compute. reflexivity.
  - reflexivity.
Defined.


End Scenario.
